(** * st2common.fields: the field codecs of st2common, embedded and verified

    The development follows [st2common/fields.py]:
    - [ComplexDateTimeField]: datetimes stored as microseconds since the epoch;
    - [JSONDictField]: dictionaries stored as JSON serialized by a backend;
    - [JSONDictEscapedFieldCompatibilityField]: the same, reading the older
      escaped-dictionary format as well.

    Python integers are unbounded, so they are [Z]; exceptions are explicit
    results; the attribute store of a document is a finite map; a dictionary
    is the list of its items in insertion order. What the fields call of
    Python's [datetime] and [calendar] is embedded from the standard library;
    the JSON libraries are a parameter, with a reference backend to inhabit
    it. *)

From Stdlib Require Import ZArith Lia Bool List DecimalZ DecimalPos.
From stdpp Require Import base option list gmap strings.

Local Open Scope Z_scope.

(** ** Python values, exceptions and results *)

Module Py.

(** The exception classes the fields raise or meet. *)
Inductive exn :=
| ValueError (msg : string)
| TypeError
| AttributeError
| ValidationError (msg : string).

(** An evaluation returns a value or raises. *)
Inductive result (A : Type) :=
| Return (a : A)
| Raise (e : exn).
Arguments Return {A} a.
Arguments Raise {A} e.

Definition bind {A B} (m : result A) (k : A -> result B) : result B :=
  match m with
  | Return a => k a
  | Raise e => Raise e
  end.

(** [try: m except: h] is the statement [try: return m / except: return h]. *)
Definition try_except {A} (m : result A) (h : A) : A :=
  match m with
  | Return a => a
  | Raise _ => h
  end.

(** A text string is its sequence of code points. *)
Definition text := list N.

Definition code (c : Ascii.ascii) : N := Ascii.N_of_ascii c.

(** The text of an ASCII literal. *)
Fixpoint str (s : string) : text :=
  match s with
  | EmptyString => []
  | String c s' => code c :: str s'
  end.

(** A float: not a number, an infinity, or the finite value [m * 2^e]. *)
Inductive pyfloat :=
| FNaN
| FInf (negative : bool)
| FFinite (m e : Z).

(** [datetime.tzinfo]: what the fields observe of a time zone object is its
    name and the offset [tzinfo.utcoffset(dt)] it gives the datetime that
    carries it, a [timedelta] counted in microseconds, or [None]. *)
Record tzinfo := Tz {
  tzname : string;
  utcoffset : option Z
}.

(** [datetime.datetime]. *)
Record datetime := Datetime {
  year : Z;
  month : Z;
  day : Z;
  hour : Z;
  minute : Z;
  second : Z;
  microsecond : Z;
  dt_tzinfo : option tzinfo
}.

#[local] Set Warnings "-register-all".
Inductive pyval :=
| PyNone
| PyBool (b : bool)
| PyInt (n : Z)
| PyFloat (f : pyfloat)
| PyStr (s : text)
| PyBytes (b : list N)
| PyDatetime (dt : datetime)
| PyList (l : list pyval)
| PyDict (d : list (text * pyval)).

(** [bool(value)]. *)
Definition truthy (value : pyval) : bool :=
  match value with
  | PyNone => false
  | PyBool b => b
  | PyInt n => negb (n =? 0)
  | PyFloat (FFinite m _) => negb (m =? 0)
  | PyFloat _ => true
  | PyStr s => negb (forallb (fun _ => false) s)
  | PyBytes b => negb (forallb (fun _ => false) b)
  | PyDatetime _ => true
  | PyList l => negb (forallb (fun _ => false) l)
  | PyDict d => negb (forallb (fun _ => false) d)
  end.

(** The integer an [int] or a [bool] counts as in arithmetic. *)
Definition as_integer (value : pyval) : option Z :=
  match value with
  | PyInt n => Some n
  | PyBool b => Some (Z.b2z b)
  | _ => None
  end.

Definition is_dict (value : pyval) : bool :=
  match value with PyDict _ => true | _ => false end.

Definition is_datetime (value : pyval) : bool :=
  match value with PyDatetime _ => true | _ => false end.

(** [isinstance(value, (six.text_type, six.binary_type))]. *)
Definition is_text_or_binary (value : pyval) : bool :=
  match value with PyStr _ | PyBytes _ => true | _ => false end.

End Py.
Import Py.

(** The results form a monad: [x ← m; k] runs [k] when [m] returns. *)
#[global] Instance result_ret : MRet result := @Return.
#[global] Instance result_bind : MBind result := fun A B k m => Py.bind m k.
#[global] Instance result_fmap : FMap result :=
  fun A B f m => Py.bind m (fun a => Return (f a)).

(** ** The calendar of Python's standard library

    [Lib/datetime.py] and [Lib/calendar.py], proleptic Gregorian. *)

Module Calendar.

Definition MINYEAR : Z := 1.
Definition MAXYEAR : Z := 9999.

Definition _DAYS_IN_MONTH : list Z :=
  [-1; 31; 28; 31; 30; 31; 30; 31; 31; 30; 31; 30; 31].

Definition _DAYS_BEFORE_MONTH : list Z :=
  [-1; 0; 31; 59; 90; 120; 151; 181; 212; 243; 273; 304; 334].

(** [table[i]] for a month table, whose index is always within 1..12. *)
Definition index (table : list Z) (i : Z) : Z :=
  nth (Z.to_nat i) table (-1).

Definition _is_leap (year : Z) : bool :=
  (year mod 4 =? 0) && (negb (year mod 100 =? 0) || (year mod 400 =? 0)).

Definition _days_before_year (year : Z) : Z :=
  let y := year - 1 in
  y * 365 + y / 4 - y / 100 + y / 400.

Definition _days_in_month (year month : Z) : Z :=
  if (month =? 2) && _is_leap year then 29
  else index _DAYS_IN_MONTH month.

Definition _days_before_month (year month : Z) : Z :=
  index _DAYS_BEFORE_MONTH month
  + Z.b2z ((2 <? month) && _is_leap year).

Definition _ymd2ord (year month day : Z) : Z :=
  _days_before_year year + _days_before_month year month + day.

Definition _DI400Y : Z := Eval cbv in _days_before_year 401.
Definition _DI100Y : Z := Eval cbv in _days_before_year 101.
Definition _DI4Y : Z := Eval cbv in _days_before_year 5.

Definition _ord2ymd (n : Z) : Z * Z * Z :=
  let n := n - 1 in
  let n400 := n / _DI400Y in
  let n := n mod _DI400Y in
  let year := n400 * 400 + 1 in
  let n100 := n / _DI100Y in
  let n := n mod _DI100Y in
  let n4 := n / _DI4Y in
  let n := n mod _DI4Y in
  let n1 := n / 365 in
  let n := n mod 365 in
  let year := year + (n100 * 100 + n4 * 4 + n1) in
  if (n1 =? 4) || (n100 =? 4) then (year - 1, 12, 31)
  else
    let leapyear := (n1 =? 3) && (negb (n4 =? 24) || (n100 =? 3)) in
    let month := Z.shiftr (n + 50) 5 in
    let preceding :=
      index _DAYS_BEFORE_MONTH month + Z.b2z ((2 <? month) && leapyear) in
    if n <? preceding then
      let month := month - 1 in
      let preceding :=
        preceding
        - (index _DAYS_IN_MONTH month + Z.b2z ((month =? 2) && leapyear)) in
      (year, month, n - preceding + 1)
    else (year, month, n - preceding + 1).

(** [datetime.date(1970, 1, 1).toordinal()]. *)
Definition _EPOCH_ORD : Z := Eval cbv in _ymd2ord 1970 1 1.

(** [calendar.timegm] on the first six fields of a time tuple. *)
Definition timegm (t : Z * Z * Z * Z * Z * Z) : Z :=
  let '(year, month, day, hour, minute, second) := t in
  let days := _ymd2ord year month 1 - _EPOCH_ORD + day - 1 in
  let hours := days * 24 + hour in
  let minutes := hours * 60 + minute in
  let seconds := minutes * 60 + second in
  seconds.

(** [time.gmtime]: the POSIX broken-down UTC time of a count of seconds. *)
Definition gmtime (t : Z) : Z * Z * Z * Z * Z * Z :=
  let days := t / 86400 in
  let rem := t mod 86400 in
  let '(y, m, d) := _ord2ymd (days + _EPOCH_ORD) in
  (y, m, d, rem / 3600, (rem mod 3600) / 60, rem mod 60).

(** The range checks of the [datetime] constructor. *)
Definition valid_fields (y m d hh mm ss us : Z) : bool :=
  (MINYEAR <=? y) && (y <=? MAXYEAR)
  && (1 <=? m) && (m <=? 12)
  && (1 <=? d) && (d <=? _days_in_month y m)
  && (0 <=? hh) && (hh <? 24)
  && (0 <=? mm) && (mm <? 60)
  && (0 <=? ss) && (ss <? 60)
  && (0 <=? us) && (us <? 1000000).

Definition valid_datetime (dt : datetime) : bool :=
  valid_fields (year dt) (month dt) (day dt)
               (hour dt) (minute dt) (second dt) (microsecond dt).

(** [datetime.datetime.utcfromtimestamp] of an integer: a naive datetime,
    or ValueError when the year falls outside [MINYEAR..MAXYEAR]. *)
Definition utcfromtimestamp (t : Z) : result datetime :=
  let '(y, m, d, hh, mm, ss) := gmtime t in
  let ss := Z.min ss 59 in
  if valid_fields y m d hh mm ss 0
  then Return (Datetime y m d hh mm ss 0 None)
  else Raise (ValueError "year is out of range").

(** [dt.replace(microsecond=us)] for an integer [us]. *)
Definition replace_microsecond (dt : datetime) (us : Z) : result datetime :=
  if (0 <=? us) && (us <? 1000000)
  then Return (Datetime (year dt) (month dt) (day dt)
                        (hour dt) (minute dt) (second dt) us (dt_tzinfo dt))
  else Raise (ValueError "microsecond must be in 0..999999").

(** [dt.timetuple()[:6]]. *)
Definition timetuple (dt : datetime) : Z * Z * Z * Z * Z * Z :=
  (year dt, month dt, day dt, hour dt, minute dt, second dt).

(** [dt.utcoffset()]: [None] for a naive datetime. *)
Definition dt_utcoffset (dt : datetime) : option Z :=
  tz ← dt_tzinfo dt; utcoffset tz.

Definition fields (dt : datetime) : list Z :=
  [year dt; month dt; day dt; hour dt; minute dt; second dt; microsecond dt].

(** The comparison of two tuples of integers. *)
Fixpoint cmp_tuple (a b : list Z) : comparison :=
  match a, b with
  | [], [] => Eq
  | [], _ :: _ => Lt
  | _ :: _, [] => Gt
  | x :: a', y :: b' =>
      match x ?= y with
      | Eq => cmp_tuple a' b'
      | c => c
      end
  end.

Definition cmp_int (c : comparison) : Z :=
  match c with Lt => -1 | Eq => 0 | Gt => 1 end.

(** The microseconds from ordinal 0 to the UTC instant of [dt], as the
    subtraction of two aware datetimes counts them. *)
Definition instant (dt : datetime) (offset : Z) : Z :=
  ((_ymd2ord (year dt) (month dt) (day dt) * 86400
    + hour dt * 3600 + minute dt * 60 + second dt) * 1000000
   + microsecond dt) - offset.

(** [datetime._cmp]: time zones are told apart by their offsets. *)
Definition _cmp (self other : datetime) (allow_mixed : bool) : result Z :=
  let myoff := dt_utcoffset self in
  let otoff := dt_utcoffset other in
  if bool_decide (myoff = otoff)
  then Return (cmp_int (cmp_tuple (fields self) (fields other)))
  else
    match myoff, otoff with
    | Some a, Some b => Return (cmp_int (instant self a ?= instant other b))
    | _, _ => if allow_mixed then Return 2 else Raise TypeError
    end.

(** [self == other]. *)
Definition datetime_eq (self other : datetime) : result bool :=
  c ← _cmp self other true; Return (c =? 0).

(** [self < other]. *)
Definition datetime_lt (self other : datetime) : result bool :=
  c ← _cmp self other false; Return (c <? 0).

(** [dateutil.tz.tzutc()]. *)
Definition tzutc : tzinfo := Tz "UTC" (Some 0).

(** Lexicographic order of dates. *)
Definition ymd_lt (y1 m1 d1 y2 m2 d2 : Z) : Prop :=
  y1 < y2 \/ (y1 = y2 /\ (m1 < m2 \/ (m1 = m2 /\ d1 < d2))).

End Calendar.
Import Calendar.

(** ** ComplexDateTimeField *)

Definition SECOND_TO_MICROSECONDS : Z := 1000000.

(** Modelled from the spec: [st2common.util.date.add_utc_tz] is not among the
    sources. Decoding "builds a UTC Timestamp" from the seconds and the
    remainder: the helper attaches the UTC time zone to the naive datetime. *)
Definition add_utc_tz (dt : datetime) : result datetime :=
  Return (Datetime (year dt) (month dt) (day dt)
                   (hour dt) (minute dt) (second dt) (microsecond dt)
                   (Some tzutc)).

(** [f // d] for a float [f] and a positive integer [d]: the floor of the
    quotient, [None] where Python gives NaN. *)
Definition float_floordiv (f : pyfloat) (d : Z) : option Z :=
  match f with
  | FNaN | FInf _ => None
  | FFinite m e =>
      if 0 <=? e then Some ((m * 2 ^ e) / d) else Some (m / (d * 2 ^ (- e)))
  end.

Definition UTC_ERROR : exn :=
  ValueError "Value passed to this function needs to be in UTC timezone".

Module ComplexDateTimeField.

(** The attributes of the field that the descriptor of the base class
    reads: [name], [null], and [default], here the value a write of [None]
    takes from it ([self.default], or what it returns when it is callable);
    a field declared without a default has none. *)
Record t := Field {
  name : string;
  null : bool;
  default : option pyval
}.

(** [data // SECOND_TO_MICROSECONDS] and [data % SECOND_TO_MICROSECONDS]
    raise TypeError unless [data] is a number ([bool] is a subclass of
    [int]); on a float both are floats, and [replace] refuses a float for
    the microsecond once [utcfromtimestamp] has accepted the seconds. *)
Definition _microseconds_since_epoch_to_datetime (data : pyval)
  : result datetime :=
  match as_integer data, data with
  | Some data, _ =>
      result ← utcfromtimestamp (data / SECOND_TO_MICROSECONDS);
      let microseconds_reminder := data mod SECOND_TO_MICROSECONDS in
      result ← replace_microsecond result microseconds_reminder;
      result ← add_utc_tz result;
      Return result
  | None, PyFloat f =>
      match float_floordiv f SECOND_TO_MICROSECONDS with
      | None => Raise (ValueError "cannot convert float NaN to integer")
      | Some seconds =>
          result ← utcfromtimestamp seconds;
          Raise TypeError
      end
  | None, _ => Raise TypeError
  end.

(** A value without a [tzinfo] attribute raises AttributeError. *)
Definition _datetime_to_microseconds_since_epoch (value : pyval) : result Z :=
  match value with
  | PyDatetime value =>
      if match dt_tzinfo value with
         | None => true
         | Some tz => negb (bool_decide (utcoffset tz = Some 0))
         end
      then Raise UTC_ERROR
      else
        let seconds := timegm (timetuple value) in
        let microseconds_reminder := microsecond value in
        let result :=
          seconds * SECOND_TO_MICROSECONDS + microseconds_reminder in
        Return result
  | _ => Raise AttributeError
  end.

Definition _convert_from_datetime (val : pyval) : result Z :=
  result ← _datetime_to_microseconds_since_epoch val;
  Return result.

Definition _convert_from_db (value : pyval) : result datetime :=
  result ← _microseconds_since_epoch_to_datetime value;
  Return result.

Definition to_python (value : pyval) : pyval :=
  let original_value := value in
  try_except (PyDatetime <$> _convert_from_db value) original_value.

Definition to_mongo (value : pyval) : result Z :=
  let value := to_python value in
  _convert_from_datetime value.

Definition prepare_query_value (value : pyval) : result Z :=
  _convert_from_datetime value.

(** [self.error(...)] raises mongoengine's ValidationError. *)
Definition validate (value : pyval) : result unit :=
  let value := to_python value in
  if negb (is_datetime value)
  then Raise (ValidationError
                "Only datetime objects may used in a ComplexDateTimeField")
  else Return tt.

(** The descriptor of the base class [LongField], which is mongoengine's
    [BaseField], keeps the value of the field in the dictionary
    [instance._data]: [__get__] is [instance._data.get(self.name)]. *)
Definition super_get (self : t) (instance : gmap string pyval) : pyval :=
  match instance !! name self with
  | Some data => data
  | None => PyNone
  end.

(** [BaseField.__set__]: a write of [None] to a field that is not [null]
    and has a default stores the default in its place; every other value is
    stored as it is given. The setter also marks the field as changed, which
    does not touch [instance._data]. *)
Definition super_set (self : t) (instance : gmap string pyval)
           (value : pyval) : gmap string pyval :=
  let value :=
    match value with
    | PyNone =>
        if null self then PyNone
        else
          match default self with
          | Some value => value
          | None => PyNone
          end
    | _ => value
    end in
  <[name self := value]> instance.

Definition __get__ (self : t) (instance : gmap string pyval)
  : result pyval :=
  let data := super_get self instance in
  match data with
  | PyNone => Return PyNone
  | PyDatetime _ => Return data
  | _ => PyDatetime <$> _convert_from_db data
  end.

Definition __set__ (self : t) (instance : gmap string pyval)
           (value : pyval) : result (gmap string pyval) :=
  value ← (if truthy value
           then PyInt <$> _convert_from_datetime value
           else Return value);
  Return (super_set self instance value).

End ComplexDateTimeField.

(** The two conversions at their intended types. *)
Abbreviation encode t :=
  (ComplexDateTimeField._datetime_to_microseconds_since_epoch (PyDatetime t)).
Abbreviation decode n :=
  (ComplexDateTimeField._microseconds_since_epoch_to_datetime (PyInt n)).

(** The seconds since the epoch of 0001-01-01T00:00:00 and of
    9999-12-31T23:59:59, the first and the last second a datetime holds. *)
Definition MIN_SECONDS : Z := -62135596800.
Definition MAX_SECONDS : Z := 253402300799.

(** The first and the last microsecond a datetime holds, as encoded. Both
    are 64-bit signed integers. *)
Definition MIN_ENCODED : Z := -62135596800000000.
Definition MAX_ENCODED : Z := 253402300799999999.

(** 2021-03-15T10:30:00.123456 UTC, and the microsecond after it under a
    time zone of another name with offset zero. *)
Definition t_example : datetime :=
  Datetime 2021 3 15 10 30 0 123456 (Some tzutc).
Definition t_later : datetime :=
  Datetime 2021 3 15 10 30 0 123457 (Some (Tz "GMT" (Some 0))).

(** The same fields as [t_example], under the other time zone. *)
Definition t_example_gmt : datetime :=
  Datetime 2021 3 15 10 30 0 123456 (Some (Tz "GMT" (Some 0))).

(** The same fields again, naive. *)
Definition t_naive : datetime :=
  Datetime 2021 3 15 10 30 0 123456 None.

(** The epoch, the microsecond before it, and the first and the last
    microsecond a datetime holds, all in UTC. *)
Definition t_epoch : datetime := Datetime 1970 1 1 0 0 0 0 (Some tzutc).
Definition t_before_epoch : datetime :=
  Datetime 1969 12 31 23 59 59 999999 (Some tzutc).
Definition t_first : datetime := Datetime 1 1 1 0 0 0 0 (Some tzutc).
Definition t_last : datetime :=
  Datetime 9999 12 31 23 59 59 999999 (Some tzutc).

(** Two fields as documents declare them: one without a default, and one
    whose default is a datetime (what a callable such as the current time
    in UTC returns). *)
Definition end_timestamp : ComplexDateTimeField.t :=
  ComplexDateTimeField.Field "end_timestamp" false None.
Definition start_timestamp : ComplexDateTimeField.t :=
  ComplexDateTimeField.Field "start_timestamp" false
    (Some (PyDatetime t_example)).

(** What [ComplexDateTimeField.validate] raises. *)
Definition NOT_A_DATETIME : exn :=
  ValidationError "Only datetime objects may used in a ComplexDateTimeField".

(** ** Dictionaries

    A [dict] keeps its items in insertion order, one per key. *)

Fixpoint dict_get (k : text) (d : list (text * pyval)) : option pyval :=
  match d with
  | [] => None
  | (k', v) :: d' => if decide (k = k') then Some v else dict_get k d'
  end.

(** [d[k] = v]: the value of a present key is replaced where it stands, a new
    key goes last. *)
Fixpoint dict_set (k : text) (v : pyval) (d : list (text * pyval))
  : list (text * pyval) :=
  match d with
  | [] => [(k, v)]
  | (k', v') :: d' =>
      if decide (k = k') then (k, v) :: d' else (k', v') :: dict_set k v d'
  end.

(** The dictionary built by assigning the items in turn. *)
Definition dict_of_items (items : list (text * pyval)) : list (text * pyval) :=
  fold_left (fun d '(k, v) => dict_set k v d) items [].

(** [x == y] for two finite floats: the values [m * 2^e] and [m' * 2^e']
    are the same number, whatever the pairs that stand for them. *)
Definition float_eq (m e m' e' : Z) : bool :=
  let lo := Z.min e e' in
  m * 2 ^ (e - lo) =? m' * 2 ^ (e' - lo).

(** Structural equality: equal scalars of the same type (floats equal by
    value, not-a-number equal to nothing), sequences equal element by
    element, mappings equal key by key whatever the order of their items. *)
Fixpoint struct_eq (a b : pyval) : bool :=
  match a, b with
  | PyNone, PyNone => true
  | PyBool x, PyBool y => Bool.eqb x y
  | PyInt x, PyInt y => x =? y
  | PyFloat (FFinite m e), PyFloat (FFinite m' e') => float_eq m e m' e'
  | PyFloat (FInf s), PyFloat (FInf s') => Bool.eqb s s'
  | PyStr x, PyStr y => bool_decide (x = y)
  | PyBytes x, PyBytes y => bool_decide (x = y)
  | PyDatetime x, PyDatetime y =>
      match datetime_eq x y with Return c => c | Raise _ => false end
  | PyList l, PyList l' =>
      (fix go (l l' : list pyval) : bool :=
         match l, l' with
         | [], [] => true
         | x :: l, y :: l' => struct_eq x y && go l l'
         | _, _ => false
         end) l l'
  | PyDict d, PyDict d' =>
      (length d =? length d')%nat
      && forallb (fun kv =>
                    match dict_get (fst kv) d' with
                    | Some v' => struct_eq (snd kv) v'
                    | None => false
                    end) d
  | _, _ => false
  end.

(** ** JSON backends

    What [dumps] of a JSON library returns and [loads] accepts: text or bytes. *)
Inductive serialized :=
| Text (s : text)
| Binary (b : list N).

Definition of_serialized (data : serialized) : pyval :=
  match data with
  | Text s => PyStr s
  | Binary b => PyBytes b
  end.

(** A JSON library: [orjson], [ujson] or [cjson]. *)
Record backend := Backend {
  loads : serialized -> result pyval;
  dumps : pyval -> result serialized
}.

(** The values JSON has: null, booleans, numbers, strings, sequences and
    mappings with string keys. *)
Fixpoint json_compatible (v : pyval) : bool :=
  match v with
  | PyNone | PyBool _ | PyInt _ | PyStr _ => true
  | PyFloat (FFinite _ _) => true
  | PyFloat _ => false
  | PyBytes _ | PyDatetime _ => false
  | PyList l => forallb json_compatible l
  | PyDict d =>
      bool_decide (NoDup (map fst d))
      && forallb (fun kv => json_compatible (snd kv)) d
  end.

(** A backend decodes what it encodes, on the values of JSON. *)
Definition round_trips (lib : backend) : Prop :=
  forall v data,
    json_compatible v = true -> dumps lib v = Return data ->
    exists v', loads lib data = Return v' /\ struct_eq v' v = true.

Definition NOT_A_MAPPING : exn :=
  ValueError "value argument must be a dictionary".

(** ** JSONDictField *)

Module JSONDictField.

(** The attributes [__init__] sets on the field. *)
Record t := Field {
  json_loads : option (serialized -> result pyval);
  json_dumps : option (pyval -> result serialized)
}.

(** Calling an attribute that was never set raises AttributeError. *)
Definition call {A B} (f : option (A -> result B)) (a : A) : result B :=
  match f with
  | Some f => f a
  | None => Raise AttributeError
  end.

Section Backends.

(** The three libraries, as imported. *)
Variables orjson ujson cjson : backend.

(** [json_backend] is the keyword argument, when given; the keyword
    [compression_algorithm] is popped and not used. *)
Definition __init__ (json_backend : option string) : result t :=
  let json_backend := default "orjson"%string json_backend in
  if negb (bool_decide
             (json_backend ∈ ["orjson"; "ujson"; "cjson"]%string))
  then Raise (ValueError ("Unsupported backend: " +:+ json_backend))
  else
    if String.eqb json_backend "orjson"
    then Return (Field (Some (loads orjson)) (Some (dumps orjson)))
    else if String.eqb json_backend "ujson"
    then Return (Field (Some (loads ujson)) (Some (dumps ujson)))
    else if String.eqb json_backend "cjson"
    then Return (Field (Some (loads cjson)) (Some (dumps cjson)))
    else Return (Field None None).

End Backends.

Definition to_mongo (self : t) (value : pyval) : result pyval :=
  if negb (is_dict value) then Raise NOT_A_MAPPING
  else
    data ← call (json_dumps self) value;
    Return (of_serialized data).

Definition to_python (self : t) (value : pyval) : result pyval :=
  match value with
  | PyStr s => call (json_loads self) (Text s)
  | PyBytes b => call (json_loads self) (Binary b)
  | _ => Return value
  end.

Section Validate.

(** [BinaryField.validate], the method of the base class, which is
    mongoengine's. *)
Variable super_validate : pyval -> result unit.

Definition validate (self : t) (value : pyval) : result unit :=
  value ← to_mongo self value;
  super_validate value.

End Validate.

End JSONDictField.

(** ** mongoescape

    Modelled from the spec: [st2common.util.mongoescape] is not among the
    sources. The legacy format has the characters [$] and [.] of the keys
    "replaced with escape sequences" (U+FF04 stands for [$]; the escape of
    [.] is taken to be its fullwidth counterpart U+FF0E), and unescaping is
    to "recursively walk the mapping and restore any keys that were escaped
    ... back to their original form, leaving non-mapping values untouched". *)
Module mongoescape.

Definition UNESCAPED : list N := [46; 36]%N.
Definition ESCAPED : list N := [65294; 65284]%N.

Definition ESCAPE_TRANSLATION : list (N * N) := zip UNESCAPED ESCAPED.
Definition UNESCAPE_TRANSLATION : list (N * N) := zip ESCAPED UNESCAPED.

Fixpoint translate_char (translation : list (N * N)) (c : N) : N :=
  match translation with
  | [] => c
  | (from, to) :: translation' =>
      if (c =? from)%N then to else translate_char translation' c
  end.

Definition translate_key (translation : list (N * N)) (key : text) : text :=
  map (translate_char translation) key.

Fixpoint _translate_chars (translation : list (N * N)) (field : pyval)
  : pyval :=
  match field with
  | PyDict d =>
      PyDict (dict_of_items
                (map (fun kv => (translate_key translation (fst kv),
                                 _translate_chars translation (snd kv))) d))
  | _ => field
  end.

Definition escape_chars (field : pyval) : pyval :=
  _translate_chars ESCAPE_TRANSLATION field.

Definition unescape_chars (field : pyval) : pyval :=
  _translate_chars UNESCAPE_TRANSLATION field.

(** The key holds no escape character. *)
Definition plain_key (k : text) : bool :=
  forallb (fun c => negb (bool_decide (c ∈ ESCAPED))) k.

(** The keys of the mapping, and of the mappings it maps to, are distinct
    and hold no escape character: the mappings that escaping does not merge
    or confuse. *)
Fixpoint plain_keys (v : pyval) : bool :=
  match v with
  | PyDict d =>
      bool_decide (NoDup (map fst d))
      && forallb (fun kv => plain_key (fst kv) && plain_keys (snd kv)) d
  | _ => true
  end.

End mongoescape.

(** ** JSONDictEscapedFieldCompatibilityField *)

Module JSONDictEscapedFieldCompatibilityField.

Import JSONDictField.

Definition to_mongo (self : t) (value : pyval) : result pyval :=
  if negb (is_dict value) then Raise NOT_A_MAPPING
  else of_serialized <$> call (json_dumps self) value.

Definition to_python (self : t) (value : pyval) : result pyval :=
  match value with
  | PyDict _ =>
      let value := mongoescape.unescape_chars value in
      Return value
  | PyStr s => call (json_loads self) (Text s)
  | PyBytes b => call (json_loads self) (Binary b)
  | _ => Return value
  end.

(** [validate] is inherited from [JSONDictField]; the [self.to_mongo] it
    calls is the method above. *)
Definition validate (super_validate : pyval -> result unit)
           (self : t) (value : pyval) : result unit :=
  value ← to_mongo self value;
  super_validate value.

End JSONDictEscapedFieldCompatibilityField.

(** ** A reference backend

    A JSON encoder and decoder of the kind the three libraries are: the
    encoder writes the compact form, the decoder reads it back. A finite
    float is written by its value, exactly, as an integer and a power of ten;
    bytes, datetimes, infinities and not-a-number are not serializable. *)
Module RefJSON.

Local Open Scope N_scope.

Definition is_digit (c : N) : bool := (48 <=? c) && (c <=? 57).

Definition hex_digit (n : N) : N := if n <? 10 then 48 + n else 87 + n.

Definition hex_value (c : N) : option N :=
  if (48 <=? c) && (c <=? 57) then Some (c - 48)
  else if (97 <=? c) && (c <=? 102) then Some (c - 87)
  else if (65 <=? c) && (c <=? 70) then Some (c - 55)
  else None.

Definition hex4 (a b c d : N) : option N :=
  a ← hex_value a; b ← hex_value b; c ← hex_value c; d ← hex_value d;
  Some (4096 * a + 256 * b + 16 * c + d).

(** The quotation mark and the reverse solidus are escaped by a reverse
    solidus, the control characters as [\u00XX]. *)
Definition escape_char (c : N) : text :=
  if c =? 34 then [92; 34]
  else if c =? 92 then [92; 92]
  else if c <? 32
       then [92; 117; 48; 48; hex_digit (c / 16); hex_digit (c mod 16)]
       else [c].

Definition print_string (s : text) : text :=
  34 :: flat_map escape_char s ++ [34].

(** The characters of a string up to its closing quotation mark. *)
Fixpoint parse_chars (s : text) : option (text * text) :=
  match s with
  | [] => None
  | c :: r =>
      if c =? 34 then Some ([], r)
      else if c =? 92 then
        match r with
        | [] => None
        | e :: r' =>
            if (e =? 34) || (e =? 92) || (e =? 47)
            then '(k, rest) ← parse_chars r'; Some (e :: k, rest)
            else if e =? 117 then
              match r' with
              | x1 :: x2 :: x3 :: x4 :: r'' =>
                  u ← hex4 x1 x2 x3 x4;
                  '(k, rest) ← parse_chars r'';
                  Some (u :: k, rest)
              | _ => None
              end
            else None
        end
      else if c <? 32 then None
      else '(k, rest) ← parse_chars r; Some (c :: k, rest)
  end.

Fixpoint print_uint (u : Decimal.uint) : text :=
  match u with
  | Decimal.Nil => []
  | Decimal.D0 u => 48 :: print_uint u
  | Decimal.D1 u => 49 :: print_uint u
  | Decimal.D2 u => 50 :: print_uint u
  | Decimal.D3 u => 51 :: print_uint u
  | Decimal.D4 u => 52 :: print_uint u
  | Decimal.D5 u => 53 :: print_uint u
  | Decimal.D6 u => 54 :: print_uint u
  | Decimal.D7 u => 55 :: print_uint u
  | Decimal.D8 u => 56 :: print_uint u
  | Decimal.D9 u => 57 :: print_uint u
  end.

Definition print_int (n : Z) : text :=
  match Z.to_int n with
  | Decimal.Pos u => print_uint u
  | Decimal.Neg u => 45 :: print_uint u
  end.

Definition digit (c : N) (u : Decimal.uint) : Decimal.uint :=
  match c - 48 with
  | 0 => Decimal.D0 u
  | 1 => Decimal.D1 u
  | 2 => Decimal.D2 u
  | 3 => Decimal.D3 u
  | 4 => Decimal.D4 u
  | 5 => Decimal.D5 u
  | 6 => Decimal.D6 u
  | 7 => Decimal.D7 u
  | 8 => Decimal.D8 u
  | _ => Decimal.D9 u
  end.

(** The longest run of digits at the head of the text. *)
Fixpoint parse_uint (s : text) : Decimal.uint * text :=
  match s with
  | [] => (Decimal.Nil, [])
  | c :: r =>
      if is_digit c
      then let '(u, rest) := parse_uint r in (digit c u, rest)
      else (Decimal.Nil, s)
  end.

Definition parse_int (s : text) : option (Z * text) :=
  match s with
  | [] => None
  | c :: r =>
      let '(u, rest) := parse_uint (if c =? 45 then r else s) in
      match u with
      | Decimal.Nil => None
      | _ => Some (Z.of_int (if c =? 45 then Decimal.Neg u
                             else Decimal.Pos u), rest)
      end
  end.

(** The float [m * 2^e], exactly: an integer when [e] is not negative, and
    [m * 5^(-e)] tenths to the power [-e] when it is; [0.5] is [5e-1]. *)
Definition print_float (m e : Z) : text :=
  if (e <? 0)%Z
  then print_int (m * 5 ^ (- e)) ++ 101 :: print_int e
  else print_int (m * 2 ^ e) ++ 101 :: print_int 0.

(** The float [n * 10^x], when it is the value of a float exactly: it is
    [n * 5^x * 2^x] for [x] not negative, and [(n / 5^(-x)) * 2^x] for [x]
    negative and [n] a multiple of [5^(-x)]. *)
Definition parse_float (n x : Z) : option pyfloat :=
  if (0 <=? x)%Z then Some (FFinite (n * 5 ^ x) x)
  else if (n mod 5 ^ (- x) =? 0)%Z then Some (FFinite (n / 5 ^ (- x)) x)
  else None.

(** A number: an integer, and a float when an exponent follows. *)
Definition parse_number (s : text) : option (pyval * text) :=
  '(n, r) ← parse_int s;
  match r with
  | c :: r' =>
      if c =? 101 then
        '(x, rest) ← parse_int r';
        f ← parse_float n x;
        Some (PyFloat f, rest)
      else Some (PyInt n, r)
  | [] => Some (PyInt n, r)
  end.

Section Items.

Variable print_value : pyval -> text.

(** The elements after the first, and the closing bracket. *)
Fixpoint print_elements (l : list pyval) : text :=
  match l with
  | [] => [93]
  | x :: l' => 44 :: print_value x ++ print_elements l'
  end.

Definition print_member (kv : text * pyval) : text :=
  print_string (fst kv) ++ 58 :: print_value (snd kv).

(** The members after the first, and the closing brace. *)
Fixpoint print_members (d : list (text * pyval)) : text :=
  match d with
  | [] => [125]
  | kv :: d' => 44 :: print_member kv ++ print_members d'
  end.

End Items.

Fixpoint print_value (v : pyval) : text :=
  match v with
  | PyNone => str "null"
  | PyBool true => str "true"
  | PyBool false => str "false"
  | PyInt n => print_int n
  | PyFloat (FFinite m e) => print_float m e
  | PyStr s => print_string s
  | PyList [] => [91; 93]
  | PyList (x :: l) => 91 :: print_value x ++ print_elements print_value l
  | PyDict [] => [123; 125]
  | PyDict (kv :: d) =>
      123 :: print_member print_value kv ++ print_members print_value d
  | PyFloat _ | PyBytes _ | PyDatetime _ => []
  end.

Fixpoint serializable (v : pyval) : bool :=
  match v with
  | PyNone | PyBool _ | PyInt _ | PyStr _ => true
  | PyFloat (FFinite _ _) => true
  | PyFloat _ | PyBytes _ | PyDatetime _ => false
  | PyList l => forallb serializable l
  | PyDict d =>
      bool_decide (NoDup (map fst d))
      && forallb (fun kv => serializable (snd kv)) d
  end.

(** [expect word s]: the text after [word] at the head of [s]. *)
Fixpoint expect (word s : text) : option text :=
  match word, s with
  | [], _ => Some s
  | w :: word', c :: s' => if c =? w then expect word' s' else None
  | _ :: _, [] => None
  end.

Section Member.

Variable parse_value : text -> option (pyval * text).

Definition parse_member (s : text) : option ((text * pyval) * text) :=
  match s with
  | c :: r =>
      if c =? 34 then
        '(k, r1) ← parse_chars r;
        r2 ← expect [58] r1;
        '(v, r3) ← parse_value r2;
        Some ((k, v), r3)
      else None
  | [] => None
  end.

End Member.

Fixpoint parse_value (fuel : nat) (s : text) : option (pyval * text) :=
  match fuel with
  | O => None
  | S fuel =>
      match s with
      | [] => None
      | c :: r =>
          if c =? 110 then r' ← expect (str "ull") r; Some (PyNone, r')
          else if c =? 116
          then r' ← expect (str "rue") r; Some (PyBool true, r')
          else if c =? 102
          then r' ← expect (str "alse") r; Some (PyBool false, r')
          else if c =? 34
          then '(k, r') ← parse_chars r; Some (PyStr k, r')
          else if c =? 91 then
            match expect [93] r with
            | Some r' => Some (PyList [], r')
            | None =>
                '(x, r1) ← parse_value fuel r;
                '(l, r2) ← parse_elements fuel r1;
                Some (PyList (x :: l), r2)
            end
          else if c =? 123 then
            match expect [125] r with
            | Some r' => Some (PyDict [], r')
            | None =>
                '(kv, r1) ← parse_member (parse_value fuel) r;
                '(d, r2) ← parse_members fuel r1;
                Some (PyDict (dict_of_items (kv :: d)), r2)
            end
          else parse_number s
      end
  end
with parse_elements (fuel : nat) (s : text) : option (list pyval * text) :=
  match fuel with
  | O => None
  | S fuel =>
      match s with
      | [] => None
      | c :: r =>
          if c =? 93 then Some ([], r)
          else if c =? 44 then
            '(x, r1) ← parse_value fuel r;
            '(l, r2) ← parse_elements fuel r1;
            Some (x :: l, r2)
          else None
      end
  end
with parse_members (fuel : nat) (s : text)
  : option (list (text * pyval) * text) :=
  match fuel with
  | O => None
  | S fuel =>
      match s with
      | [] => None
      | c :: r =>
          if c =? 125 then Some ([], r)
          else if c =? 44 then
            '(kv, r1) ← parse_member (parse_value fuel) r;
            '(d, r2) ← parse_members fuel r1;
            Some (kv :: d, r2)
          else None
      end
  end.

(** The text does not go on with a digit: what may follow an integer. *)
Definition no_digit (s : text) : Prop :=
  match s with
  | [] => True
  | c :: _ => is_digit c = false
  end.

(** The text goes on with neither a digit nor an exponent: what may follow
    a number. *)
Definition number_end (s : text) : Prop :=
  match s with
  | [] => True
  | c :: _ => is_digit c = false /\ c <> 101
  end.

(** The float the decoder reads for the float [f] written: of the same
    value, with the exponent zero when that of [f] is positive. *)
Definition read_float (f : pyfloat) : pyfloat :=
  match f with
  | FFinite m e => if (e <? 0)%Z then f else FFinite (m * 2 ^ e) 0
  | _ => f
  end.

(** The value the decoder reads for the value [v] written: [v] itself but
    for its floats. *)
Fixpoint read_value (v : pyval) : pyval :=
  match v with
  | PyFloat f => PyFloat (read_float f)
  | PyList l => PyList (map read_value l)
  | PyDict d => PyDict (map (fun kv => (fst kv, read_value (snd kv))) d)
  | _ => v
  end.

(** A bound on the depth of the recursion that reads a value back. *)
Fixpoint size (v : pyval) : nat :=
  match v with
  | PyList l => fold_right (fun x n => S (size x + n)) 0%nat l
  | PyDict d => fold_right (fun kv n => S (size (snd kv) + n)) 0%nat d
  | _ => 0%nat
  end.

(** The decoder reads the encoding of [v] back, and leaves what follows. *)
Definition reads_back (v : pyval) : Prop :=
  serializable v = true ->
  forall fuel rest,
    (size v < fuel)%nat -> number_end rest ->
    parse_value fuel (print_value v ++ rest) = Some (read_value v, rest).

Definition ref_dumps (v : pyval) : result serialized :=
  if serializable v then Return (Text (print_value v))
  else Raise TypeError.

Definition ref_loads (data : serialized) : result pyval :=
  let s := match data with Text s => s | Binary b => b end in
  match parse_value (S (length s)) s with
  | Some (v, []) => Return v
  | _ => Raise (ValueError "Expecting value")
  end.

Definition lib : backend := Backend ref_loads ref_dumps.

End RefJSON.

Import mongoescape.

Module Compat := JSONDictEscapedFieldCompatibilityField.

(** ** Examples *)

(** The field whose two attributes are the functions of the library. *)
Definition field_of (lib : backend) : JSONDictField.t :=
  JSONDictField.Field (Some (loads lib)) (Some (dumps lib)).

(** The field built on the reference backend. *)
Definition ref_field : JSONDictField.t := field_of RefJSON.lib.

Definition FULLWIDTH_DOLLAR : N := 65284.

(** The legacy mapping whose one key is [a], U+FF04, [r], [e], [f]. *)
Definition legacy_example : pyval :=
  PyDict [(str "a" ++ [FULLWIDTH_DOLLAR] ++ str "ref", PyInt 1)].

(** A mapping that holds floats: the ratio one half, the level twelve
    (held as [3 * 2^2]), and a list of a float and an integer. *)
Definition reading_example : pyval :=
  PyDict [(str "status", PyStr (str "ok"));
          (str "ratio", PyFloat (FFinite 1 (-1)));
          (str "level", PyFloat (FFinite 3 2));
          (str "points", PyList [PyFloat (FFinite (-5) (-2)); PyInt 3])].

(** * Verification *)

(** ** The calendar: ordinals and dates *)

Lemma is_leap_true y :
  _is_leap y = true
  <-> (y mod 4 = 0 /\ (y mod 100 <> 0 \/ y mod 400 = 0)).
Proof.
  unfold _is_leap.
  rewrite andb_true_iff, orb_true_iff, negb_true_iff, !Z.eqb_eq, Z.eqb_neq.
  tauto.
Qed.

(** A year has 365 days, and one more when it is a leap year. *)
Lemma days_before_year_succ y :
  _days_before_year (y + 1) = _days_before_year y + 365 + Z.b2z (_is_leap y).
Proof.
  unfold _days_before_year.
  destruct (_is_leap y) eqn:E.
  - apply is_leap_true in E. cbn [Z.b2z]. Z.div_mod_to_equations; lia.
  - assert (~ (y mod 4 = 0 /\ (y mod 100 <> 0 \/ y mod 400 = 0))) as E'
      by (rewrite <- is_leap_true, E; discriminate).
    cbn [Z.b2z]. Z.div_mod_to_equations; lia.
Qed.

Lemma days_before_year_mono y1 y2 :
  y1 < y2 ->
  _days_before_year y1 + 366 <= _days_before_year y2 + 1
  /\ _days_before_year (y1 + 1) <= _days_before_year y2.
Proof.
  unfold _days_before_year. intros H. Z.div_mod_to_equations; lia.
Qed.

(** Month tables at a known index are read off by computation. *)
Ltac lookup_tables :=
  repeat match goal with
    | |- context [index ?t ?k] =>
        let v := eval vm_compute in (index t k) in
        change (index t k) with v
    end.

(** The month and the day [_ord2ymd] finds for the day [n] of a year: the
    estimate [(n + 50) >> 5] is the month or the one after it. *)
Lemma month_day_spec (leap : bool) (n y : Z) :
  0 <= n < 365 + Z.b2z leap ->
  exists m d,
    (let month := Z.shiftr (n + 50) 5 in
     let preceding :=
       index _DAYS_BEFORE_MONTH month + Z.b2z ((2 <? month) && leap) in
     if n <? preceding then
       let month := month - 1 in
       let preceding :=
         preceding
         - (index _DAYS_IN_MONTH month + Z.b2z ((month =? 2) && leap)) in
       (y, month, n - preceding + 1)
     else (y, month, n - preceding + 1)) = (y, m, d)
    /\ 1 <= m <= 12
    /\ 1 <= d <= (if (m =? 2) && leap then 29 else index _DAYS_IN_MONTH m)
    /\ index _DAYS_BEFORE_MONTH m + Z.b2z ((2 <? m) && leap) + d = n + 1.
Proof.
  intros Hn. rewrite Z.shiftr_div_pow2 by lia. change (2 ^ 5) with 32.
  assert (Hb : Z.b2z leap <= 1) by (destruct leap; cbn; lia).
  remember ((n + 50) / 32) as month eqn:Hm.
  assert (Hr : month * 32 <= n + 50 < month * 32 + 32)
    by (subst month; Z.div_mod_to_equations; lia).
  assert (Hc : month = 1 \/ month = 2 \/ month = 3 \/ month = 4 \/ month = 5
               \/ month = 6 \/ month = 7 \/ month = 8 \/ month = 9
               \/ month = 10 \/ month = 11 \/ month = 12) by lia.
  clear Hm.
  destruct leap;
    repeat (destruct Hc as [Hc | Hc]); subst month; cbv zeta; lookup_tables;
    cbn -[Z.ltb index];
    match goal with
    | |- context [?a <? ?b] => destruct (Z.ltb_spec a b) as [Hlt | Hge]
    end;
    (eexists _, _; split; [reflexivity |]; lookup_tables; simpl in *; lia).
Qed.

Lemma is_leap_false y :
  _is_leap y = false <-> ~ (y mod 4 = 0 /\ (y mod 100 <> 0 \/ y mod 400 = 0)).
Proof. rewrite <- is_leap_true. destruct (_is_leap y); intuition congruence. Qed.

(** The days before a year, by its place in the cycles of 400, 100 and 4
    years. *)
Lemma days_before_year_cycle a b c e :
  0 <= b <= 3 -> 0 <= c <= 24 -> 0 <= e <= 3 ->
  _days_before_year (a * 400 + 1 + (b * 100 + c * 4 + e))
  = a * 146097 + b * 36524 + c * 1461 + e * 365.
Proof.
  intros Hb Hc He. unfold _days_before_year.
  Z.div_mod_to_equations; lia.
Qed.

Lemma is_leap_cycle a b c e :
  0 <= b <= 3 -> 0 <= c <= 24 -> 0 <= e <= 3 ->
  _is_leap (a * 400 + 1 + (b * 100 + c * 4 + e))
  = (e =? 3) && (negb (c =? 24) || (b =? 3)).
Proof.
  intros Hb Hc He.
  destruct ((e =? 3) && (negb (c =? 24) || (b =? 3))) eqn:E.
  - apply andb_true_iff in E as [E1 E2]. apply orb_true_iff in E2.
    rewrite negb_true_iff, Z.eqb_neq, Z.eqb_eq in E2. apply Z.eqb_eq in E1.
    apply is_leap_true. Z.div_mod_to_equations; lia.
  - apply andb_false_iff in E. rewrite orb_false_iff, negb_false_iff in E.
    rewrite !Z.eqb_neq, Z.eqb_eq in E.
    apply is_leap_false. Z.div_mod_to_equations; lia.
Qed.

(** [_ord2ymd] gives a date of the calendar, whose ordinal is [n]. *)
Lemma ord2ymd_spec n :
  exists y m d,
    _ord2ymd n = (y, m, d)
    /\ 1 <= m <= 12 /\ 1 <= d <= _days_in_month y m
    /\ _ymd2ord y m d = n.
Proof.
  unfold _ord2ymd. cbv zeta. unfold _DI400Y, _DI100Y, _DI4Y.
  set (n0 := n - 1).
  set (a := n0 / 146097). set (r1 := n0 mod 146097).
  set (b := r1 / 36524). set (r2 := r1 mod 36524).
  set (c := r2 / 1461). set (r3 := r2 mod 1461).
  set (e := r3 / 365). set (r4 := r3 mod 365).
  assert (H1 : n0 = a * 146097 + r1 /\ 0 <= r1 < 146097)
    by (subst a r1; Z.div_mod_to_equations; lia).
  assert (H2 : r1 = b * 36524 + r2 /\ 0 <= r2 < 36524)
    by (subst b r2; Z.div_mod_to_equations; lia).
  assert (H3 : r2 = c * 1461 + r3 /\ 0 <= r3 < 1461)
    by (subst c r3; Z.div_mod_to_equations; lia).
  assert (H4 : r3 = e * 365 + r4 /\ 0 <= r4 < 365)
    by (subst e r4; Z.div_mod_to_equations; lia).
  clearbody a r1 b r2 c r3 e r4.
  assert (Hb : 0 <= b <= 4) by lia.
  assert (Hc : 0 <= c <= 24) by lia.
  assert (He : 0 <= e <= 4) by lia.
  destruct ((e =? 4) || (b =? 4)) eqn:Hlast.
  - (* the last day of a leap year *)
    apply orb_true_iff in Hlast. rewrite !Z.eqb_eq in Hlast.
    exists (a * 400 + 1 + (b * 100 + c * 4 + e) - 1), 12, 31.
    assert (Hleap : _is_leap (a * 400 + 1 + (b * 100 + c * 4 + e) - 1) = true).
    { apply is_leap_true. Z.div_mod_to_equations; lia. }
    split; [reflexivity |].
    unfold _days_in_month, _ymd2ord, _days_before_month.
    rewrite Hleap. lookup_tables. simpl.
    split; [lia |]. split; [lia |].
    unfold _days_before_year. Z.div_mod_to_equations; lia.
  - apply orb_false_iff in Hlast. rewrite !Z.eqb_neq in Hlast.
    assert (Hb' : 0 <= b <= 3) by lia. assert (He' : 0 <= e <= 3) by lia.
    pose proof (is_leap_cycle a b c e Hb' Hc He') as Hleap.
    pose proof (days_before_year_cycle a b c e Hb' Hc He') as Hdby.
    set (leapyear := (e =? 3) && (negb (c =? 24) || (b =? 3))) in *.
    destruct (month_day_spec leapyear r4 (a * 400 + 1 + (b * 100 + c * 4 + e)))
      as (m & d & Hmd & Hm & Hd & Hsum).
    { destruct leapyear; simpl; lia. }
    exists (a * 400 + 1 + (b * 100 + c * 4 + e)), m, d.
    split; [exact Hmd |].
    unfold _days_in_month, _ymd2ord, _days_before_month.
    rewrite Hleap, Hdby. repeat split; try lia.
Qed.

Ltac month_cases m :=
  let H := fresh "Hc" in
  assert (H : m = 1 \/ m = 2 \/ m = 3 \/ m = 4 \/ m = 5 \/ m = 6 \/ m = 7
              \/ m = 8 \/ m = 9 \/ m = 10 \/ m = 11 \/ m = 12) by lia;
  repeat (destruct H as [H | H]); subst m.

(** The day of the year of a date of the calendar. *)
Lemma day_of_year_bounds y m d :
  1 <= m <= 12 -> 1 <= d <= _days_in_month y m ->
  1 <= _days_before_month y m + d <= 365 + Z.b2z (_is_leap y).
Proof.
  unfold _days_in_month, _days_before_month. intros Hm.
  destruct (_is_leap y); month_cases m; lookup_tables; simpl; lia.
Qed.

Lemma day_of_year_lt y m1 d1 m2 d2 :
  1 <= m1 <= 12 -> 1 <= d1 <= _days_in_month y m1 ->
  1 <= m2 <= 12 -> 1 <= d2 ->
  m1 < m2 ->
  _days_before_month y m1 + d1 < _days_before_month y m2 + d2.
Proof.
  unfold _days_in_month, _days_before_month. intros Hm1 Hd1 Hm2 Hd2 Hlt.
  destruct (_is_leap y); month_cases m1; month_cases m2; try lia;
    revert Hd1; lookup_tables; simpl; lia.
Qed.

Lemma ymd2ord_bounds y m d :
  1 <= m <= 12 -> 1 <= d <= _days_in_month y m ->
  _days_before_year y < _ymd2ord y m d <= _days_before_year (y + 1).
Proof.
  intros Hm Hd. pose proof (day_of_year_bounds y m d Hm Hd).
  rewrite days_before_year_succ. unfold _ymd2ord. lia.
Qed.

(** The ordinal is strictly increasing along the dates of the calendar. *)
Lemma ymd2ord_lt y1 m1 d1 y2 m2 d2 :
  1 <= m1 <= 12 -> 1 <= d1 <= _days_in_month y1 m1 ->
  1 <= m2 <= 12 -> 1 <= d2 <= _days_in_month y2 m2 ->
  ymd_lt y1 m1 d1 y2 m2 d2 ->
  _ymd2ord y1 m1 d1 < _ymd2ord y2 m2 d2.
Proof.
  intros Hm1 Hd1 Hm2 Hd2 [Hy | [-> [Hm | [-> Hd]]]].
  - pose proof (ymd2ord_bounds y1 m1 d1 Hm1 Hd1).
    pose proof (ymd2ord_bounds y2 m2 d2 Hm2 Hd2).
    pose proof (days_before_year_mono y1 y2 Hy). lia.
  - unfold _ymd2ord.
    pose proof (day_of_year_lt y2 m1 d1 m2 d2 Hm1 Hd1 Hm2 ltac:(lia) Hm). lia.
  - unfold _ymd2ord. lia.
Qed.

Lemma ymd2ord_inj y1 m1 d1 y2 m2 d2 :
  1 <= m1 <= 12 -> 1 <= d1 <= _days_in_month y1 m1 ->
  1 <= m2 <= 12 -> 1 <= d2 <= _days_in_month y2 m2 ->
  _ymd2ord y1 m1 d1 = _ymd2ord y2 m2 d2 ->
  y1 = y2 /\ m1 = m2 /\ d1 = d2.
Proof.
  intros Hm1 Hd1 Hm2 Hd2 Heq.
  assert (Hlt : ymd_lt y1 m1 d1 y2 m2 d2 \/ ymd_lt y2 m2 d2 y1 m1 d1
                \/ (y1 = y2 /\ m1 = m2 /\ d1 = d2))
    by (unfold ymd_lt; lia).
  destruct Hlt as [Hlt | [Hlt | Hlt]]; [| | exact Hlt];
    apply ymd2ord_lt in Hlt; auto; lia.
Qed.

Lemma ord2ymd_ymd2ord y m d :
  1 <= m <= 12 -> 1 <= d <= _days_in_month y m ->
  _ord2ymd (_ymd2ord y m d) = (y, m, d).
Proof.
  intros Hm Hd.
  destruct (ord2ymd_spec (_ymd2ord y m d)) as (y' & m' & d' & -> & Hm' & Hd' & Heq).
  apply ymd2ord_inj in Heq as (-> & -> & ->); auto.
Qed.

(** The year of an ordinal lies in [MINYEAR..MAXYEAR] exactly for the
    ordinals of [date.min] to [date.max]. *)
Lemma ord2ymd_year_range n y m d :
  _ord2ymd n = (y, m, d) ->
  (MINYEAR <= y <= MAXYEAR <-> 1 <= n <= 3652059).
Proof.
  intros Heq.
  destruct (ord2ymd_spec n) as (y' & m' & d' & Heq' & Hm & Hd & Hn).
  rewrite Heq in Heq'. injection Heq' as <- <- <-.
  pose proof (ymd2ord_bounds y m d Hm Hd) as Hb. rewrite Hn in Hb.
  unfold MINYEAR, MAXYEAR.
  assert (H1 : _days_before_year 1 = 0) by reflexivity.
  assert (H2 : _days_before_year 10000 = 3652059) by reflexivity.
  split.
  - intros [Hlo Hhi]. split.
    + destruct (Z.eq_dec y 1) as [-> | Hne]; [lia |].
      pose proof (days_before_year_mono 1 y ltac:(lia)). lia.
    + destruct (Z.eq_dec (y + 1) 10000) as [He | Hne]; [rewrite He in Hb; lia |].
      pose proof (days_before_year_mono (y + 1) 10000 ltac:(lia)). lia.
  - intros [Hlo Hhi]. split.
    + destruct (Z_lt_le_dec y 1) as [Hlt | Hge]; [| lia].
      destruct (Z.eq_dec (y + 1) 1) as [He | Hne]; [rewrite He in Hb; lia |].
      pose proof (days_before_year_mono (y + 1) 1 ltac:(lia)). lia.
    + destruct (Z_lt_le_dec 9999 y) as [Hlt | Hge]; [| lia].
      destruct (Z.eq_dec y 10000) as [-> | Hne]; [lia |].
      pose proof (days_before_year_mono 10000 y ltac:(lia)). lia.
Qed.

(** ** The timestamp codec: seconds, encodings and datetimes *)

Lemma valid_fields_spec y m d hh mm ss us :
  valid_fields y m d hh mm ss us = true <->
  (MINYEAR <= y <= MAXYEAR) /\ 1 <= m <= 12 /\ 1 <= d <= _days_in_month y m
  /\ 0 <= hh < 24 /\ 0 <= mm < 60 /\ 0 <= ss < 60 /\ 0 <= us < 1000000.
Proof.
  unfold valid_fields.
  rewrite !andb_true_iff, !Z.leb_le, !Z.ltb_lt. tauto.
Qed.

(** The seconds [timegm] counts, from the ordinal of the date. *)
Lemma timegm_ordinal y m d hh mm ss :
  timegm (y, m, d, hh, mm, ss)
  = (_ymd2ord y m d - _EPOCH_ORD) * 86400 + (hh * 3600 + mm * 60 + ss).
Proof. unfold timegm, _ymd2ord. lia. Qed.

Lemma timegm_timetuple t :
  timegm (timetuple t)
  = (_ymd2ord (year t) (month t) (day t) - _EPOCH_ORD) * 86400
    + (hour t * 3600 + minute t * 60 + second t).
Proof. apply timegm_ordinal. Qed.

Lemma gmtime_timegm y m d hh mm ss :
  1 <= m <= 12 -> 1 <= d <= _days_in_month y m ->
  0 <= hh < 24 -> 0 <= mm < 60 -> 0 <= ss < 60 ->
  gmtime (timegm (y, m, d, hh, mm, ss)) = (y, m, d, hh, mm, ss).
Proof.
  intros Hm Hd Hh Hmm Hss. rewrite timegm_ordinal. unfold gmtime.
  set (o := _ymd2ord y m d). set (r := hh * 3600 + mm * 60 + ss).
  assert (Hr : 0 <= r < 86400) by (subst r; lia).
  assert (Hq : ((o - _EPOCH_ORD) * 86400 + r) / 86400 = o - _EPOCH_ORD)
    by (Z.div_mod_to_equations; lia).
  assert (Hrem : ((o - _EPOCH_ORD) * 86400 + r) mod 86400 = r)
    by (Z.div_mod_to_equations; lia).
  rewrite Hq, Hrem.
  replace (o - _EPOCH_ORD + _EPOCH_ORD) with o by lia.
  subst o. rewrite ord2ymd_ymd2ord by assumption.
  subst r. repeat f_equal; Z.div_mod_to_equations; lia.
Qed.

Lemma timegm_gmtime t :
  timegm (gmtime t) = t.
Proof.
  unfold gmtime.
  destruct (ord2ymd_spec (t / 86400 + _EPOCH_ORD)) as (y & m & d & -> & Hm & Hd & Ho).
  rewrite timegm_ordinal, Ho. Z.div_mod_to_equations; lia.
Qed.

Lemma utcfromtimestamp_in_range t :
  MIN_SECONDS <= t <= MAX_SECONDS ->
  exists y m d hh mm ss,
    utcfromtimestamp t = Return (Datetime y m d hh mm ss 0 None)
    /\ valid_fields y m d hh mm ss 0 = true
    /\ timegm (y, m, d, hh, mm, ss) = t.
Proof.
  unfold MIN_SECONDS, MAX_SECONDS. intros Ht.
  pose proof (timegm_gmtime t) as Hinv.
  unfold utcfromtimestamp. unfold gmtime in *.
  destruct (_ord2ymd (t / 86400 + _EPOCH_ORD)) as [[y m] d] eqn:Hymd.
  destruct (ord2ymd_spec (t / 86400 + _EPOCH_ORD))
    as (y' & m' & d' & Heq & Hm & Hd & Ho).
  rewrite Hymd in Heq. injection Heq as <- <- <-.
  pose proof (ord2ymd_year_range _ _ _ _ Hymd) as Hyear.
  set (rem := t mod 86400) in *.
  assert (Hrem : 0 <= rem < 86400) by (subst rem; Z.div_mod_to_equations; lia).
  assert (Hss : Z.min (rem mod 60) 59 = rem mod 60)
    by (Z.div_mod_to_equations; lia).
  rewrite Hss.
  assert (Hv : valid_fields y m d (rem / 3600) (rem mod 3600 / 60) (rem mod 60) 0
               = true).
  { apply valid_fields_spec. unfold _EPOCH_ORD in *.
    repeat split; try tauto; try (Z.div_mod_to_equations; lia);
      apply Hyear; Z.div_mod_to_equations; lia. }
  rewrite Hv. eauto 10.
Qed.

Lemma utcfromtimestamp_out_of_range t :
  ~ (MIN_SECONDS <= t <= MAX_SECONDS) ->
  utcfromtimestamp t = Raise (ValueError "year is out of range").
Proof.
  unfold MIN_SECONDS, MAX_SECONDS. intros Ht.
  unfold utcfromtimestamp, gmtime.
  destruct (_ord2ymd (t / 86400 + _EPOCH_ORD)) as [[y m] d] eqn:Hymd.
  pose proof (ord2ymd_year_range _ _ _ _ Hymd) as Hyear.
  destruct (valid_fields _ _ _ _ _ _ _) eqn:Hv; [| reflexivity].
  apply valid_fields_spec in Hv. exfalso. apply Ht.
  unfold _EPOCH_ORD in *.
  assert (1 <= t / 86400 + 719163 <= 3652059) by (apply Hyear; tauto).
  Z.div_mod_to_equations; lia.
Qed.

Lemma encode_utc t :
  dt_utcoffset t = Some 0 ->
  encode t = Return (timegm (timetuple t) * SECOND_TO_MICROSECONDS + microsecond t).
Proof.
  unfold dt_utcoffset, ComplexDateTimeField._datetime_to_microseconds_since_epoch.
  destruct (dt_tzinfo t) as [tz |]; simpl; [| discriminate].
  intros ->. rewrite bool_decide_eq_true_2 by reflexivity. reflexivity.
Qed.

Lemma encode_not_utc t :
  dt_utcoffset t <> Some 0 -> encode t = Raise UTC_ERROR.
Proof.
  unfold dt_utcoffset, ComplexDateTimeField._datetime_to_microseconds_since_epoch.
  destruct (dt_tzinfo t) as [tz |]; simpl; [| reflexivity].
  intros Hne. rewrite bool_decide_eq_false_2 by assumption. reflexivity.
Qed.

Lemma encode_range t n :
  valid_datetime t = true -> encode t = Return n ->
  MIN_ENCODED <= n <= MAX_ENCODED.
Proof.
  intros Hv He.
  destruct (decide (dt_utcoffset t = Some 0)) as [Hu | Hu];
    [| rewrite encode_not_utc in He by assumption; discriminate].
  rewrite encode_utc in He by assumption.
  assert (n = timegm (timetuple t) * SECOND_TO_MICROSECONDS + microsecond t)
    as -> by congruence.
  clear He.
  apply valid_fields_spec in Hv as (Hy & Hm & Hd & Hh & Hmi & Hs & Hus).
  rewrite timegm_timetuple.
  pose proof (ymd2ord_bounds _ _ _ Hm Hd) as Hb.
  unfold MINYEAR, MAXYEAR in Hy.
  assert (H1 : 0 <= _days_before_year (year t)).
  { destruct (Z.eq_dec (year t) 1) as [-> | Hne]; [cbv; discriminate |].
    pose proof (days_before_year_mono 1 (year t) ltac:(lia)) as [_ H].
    change (_days_before_year (1 + 1)) with 365 in H. lia. }
  assert (H2 : _days_before_year (year t + 1) <= 3652059).
  { destruct (Z.eq_dec (year t + 1) 10000) as [-> | Hne]; [cbv; discriminate |].
    pose proof (days_before_year_mono (year t + 1) 10000 ltac:(lia)) as [H _].
    change (_days_before_year 10000) with 3652059 in H. lia. }
  unfold MIN_ENCODED, MAX_ENCODED, SECOND_TO_MICROSECONDS, _EPOCH_ORD. lia.
Qed.

Lemma decode_in_range n :
  MIN_ENCODED <= n <= MAX_ENCODED ->
  exists t,
    decode n = Return t /\ valid_datetime t = true
    /\ dt_tzinfo t = Some tzutc /\ encode t = Return n.
Proof.
  unfold MIN_ENCODED, MAX_ENCODED. intros Hn.
  unfold ComplexDateTimeField._microseconds_since_epoch_to_datetime.
  cbn [as_integer]. unfold SECOND_TO_MICROSECONDS.
  destruct (utcfromtimestamp_in_range (n / 1000000))
    as (y & m & d & hh & mm & ss & -> & Hv & Hgm).
  { unfold MIN_SECONDS, MAX_SECONDS. Z.div_mod_to_equations; lia. }
  assert (Hus : 0 <= n mod 1000000 < 1000000) by (Z.div_mod_to_equations; lia).
  cbn [mbind result_bind Py.bind]. unfold replace_microsecond.
  replace ((0 <=? n mod 1000000) && (n mod 1000000 <? 1000000)) with true
    by (symmetry; apply andb_true_iff; rewrite Z.leb_le, Z.ltb_lt; lia).
  eexists. split; [cbn; reflexivity |].
  apply valid_fields_spec in Hv as (Hy & Hm & Hd & Hh & Hmi & Hs & _).
  split; [apply valid_fields_spec; cbn; tauto |].
  split; [reflexivity |].
  rewrite encode_utc by reflexivity.
  cbn [microsecond].
  match goal with
  | |- context [timetuple ?t] =>
      change (timetuple t) with (y, m, d, hh, mm, ss)
  end.
  rewrite Hgm. unfold SECOND_TO_MICROSECONDS. f_equal. Z.div_mod_to_equations; lia.
Qed.

Lemma decode_out_of_range n :
  ~ (MIN_ENCODED <= n <= MAX_ENCODED) ->
  decode n = Raise (ValueError "year is out of range").
Proof.
  unfold MIN_ENCODED, MAX_ENCODED. intros Hn.
  unfold ComplexDateTimeField._microseconds_since_epoch_to_datetime.
  cbn [as_integer]. unfold SECOND_TO_MICROSECONDS.
  rewrite utcfromtimestamp_out_of_range; [reflexivity |].
  unfold MIN_SECONDS, MAX_SECONDS. Z.div_mod_to_equations; lia.
Qed.

Lemma decode_encode t n :
  valid_datetime t = true -> encode t = Return n ->
  decode n = Return (Datetime (year t) (month t) (day t) (hour t) (minute t)
                              (second t) (microsecond t) (Some tzutc)).
Proof.
  intros Hv He.
  destruct (decide (dt_utcoffset t = Some 0)) as [Hu | Hu];
    [| rewrite encode_not_utc in He by assumption; discriminate].
  rewrite encode_utc in He by assumption.
  assert (n = timegm (timetuple t) * SECOND_TO_MICROSECONDS + microsecond t)
    as -> by congruence.
  clear He.
  pose proof Hv as Hv'.
  apply valid_fields_spec in Hv as (Hy & Hm & Hd & Hh & Hmi & Hs & Hus).
  unfold ComplexDateTimeField._microseconds_since_epoch_to_datetime.
  cbn [as_integer]. unfold SECOND_TO_MICROSECONDS.
  set (s := timegm (timetuple t)).
  replace ((s * 1000000 + microsecond t) / 1000000) with s
    by (Z.div_mod_to_equations; lia).
  replace ((s * 1000000 + microsecond t) mod 1000000) with (microsecond t)
    by (Z.div_mod_to_equations; lia).
  unfold utcfromtimestamp. subst s.
  change (timetuple t)
    with (year t, month t, day t, hour t, minute t, second t).
  rewrite gmtime_timegm by assumption.
  rewrite Z.min_l by lia.
  replace (valid_fields _ _ _ _ _ _ 0) with true
    by (symmetry; apply valid_fields_spec; lia).
  cbn [mbind result_bind Py.bind]. unfold replace_microsecond.
  replace ((0 <=? microsecond t) && (microsecond t <? 1000000)) with true
    by (symmetry; apply andb_true_iff; rewrite Z.leb_le, Z.ltb_lt; lia).
  reflexivity.
Qed.

Lemma cmp_tuple_refl a : cmp_tuple a a = Eq.
Proof. induction a as [| x a IH]; [reflexivity |]. cbn. rewrite Z.compare_refl. exact IH. Qed.

(** On datetimes in UTC the tuple order is the order of the encodings. *)
Lemma cmp_tuple_encode t1 t2 n1 n2 :
  valid_datetime t1 = true -> valid_datetime t2 = true ->
  encode t1 = Return n1 -> encode t2 = Return n2 ->
  cmp_tuple (fields t1) (fields t2) = (n1 ?= n2).
Proof.
  intros Hv1 Hv2 He1 He2.
  destruct (decide (dt_utcoffset t1 = Some 0)) as [Hu1 | Hu1];
    [| rewrite encode_not_utc in He1 by assumption; discriminate].
  destruct (decide (dt_utcoffset t2 = Some 0)) as [Hu2 | Hu2];
    [| rewrite encode_not_utc in He2 by assumption; discriminate].
  rewrite encode_utc, timegm_timetuple in He1, He2 by assumption.
  apply valid_fields_spec in Hv1 as (_ & Hm1 & Hd1 & Hh1 & Hmi1 & Hs1 & Hus1).
  apply valid_fields_spec in Hv2 as (_ & Hm2 & Hd2 & Hh2 & Hmi2 & Hs2 & Hus2).
  pose proof (ymd2ord_lt _ _ _ _ _ _ Hm1 Hd1 Hm2 Hd2) as Hlt.
  pose proof (ymd2ord_lt _ _ _ _ _ _ Hm2 Hd2 Hm1 Hd1) as Hgt.
  assert (Heq : year t1 = year t2 -> month t1 = month t2 -> day t1 = day t2 ->
                _ymd2ord (year t1) (month t1) (day t1)
                = _ymd2ord (year t2) (month t2) (day t2))
    by (intros -> -> ->; reflexivity).
  unfold ymd_lt in Hlt, Hgt.
  set (o1 := _ymd2ord (year t1) (month t1) (day t1)) in *.
  set (o2 := _ymd2ord (year t2) (month t2) (day t2)) in *.
  clearbody o1 o2.
  assert (n1 = ((o1 - _EPOCH_ORD) * 86400
                + (hour t1 * 3600 + minute t1 * 60 + second t1))
               * SECOND_TO_MICROSECONDS + microsecond t1) as -> by congruence.
  assert (n2 = ((o2 - _EPOCH_ORD) * 86400
                + (hour t2 * 3600 + minute t2 * 60 + second t2))
               * SECOND_TO_MICROSECONDS + microsecond t2) as -> by congruence.
  clear He1 He2. unfold SECOND_TO_MICROSECONDS, fields. cbn [cmp_tuple].
  repeat match goal with
    | |- context [?a ?= ?b] =>
        lazymatch a with
        | year _ => idtac | month _ => idtac | day _ => idtac | hour _ => idtac
        | minute _ => idtac | second _ => idtac | microsecond _ => idtac
        end;
        destruct (Z.compare_spec a b)
    end;
    symmetry;
    first [ apply Z.compare_eq_iff | apply Z.compare_lt_iff
          | apply Z.compare_gt_iff ];
    lia.
Qed.

Lemma datetime_eq_utc t1 t2 :
  dt_utcoffset t1 = Some 0 -> dt_utcoffset t2 = Some 0 ->
  datetime_eq t1 t2
  = Return (cmp_int (cmp_tuple (fields t1) (fields t2)) =? 0).
Proof.
  intros H1 H2. unfold datetime_eq, _cmp. rewrite H1, H2.
  rewrite bool_decide_eq_true_2 by reflexivity. reflexivity.
Qed.

Lemma datetime_lt_utc t1 t2 :
  dt_utcoffset t1 = Some 0 -> dt_utcoffset t2 = Some 0 ->
  datetime_lt t1 t2
  = Return (cmp_int (cmp_tuple (fields t1) (fields t2)) <? 0).
Proof.
  intros H1 H2. unfold datetime_lt, _cmp. rewrite H1, H2.
  rewrite bool_decide_eq_true_2 by reflexivity. reflexivity.
Qed.

Lemma encode_returns_utc t n : encode t = Return n -> dt_utcoffset t = Some 0.
Proof.
  intros He. destruct (decide (dt_utcoffset t = Some 0)) as [Hu | Hu]; [exact Hu |].
  rewrite encode_not_utc in He by assumption. discriminate.
Qed.

(** C1, as amended: encoding a valid datetime in UTC and decoding the
    integer gives a datetime equal to it ([==] of datetimes); decoding an
    integer between [MIN_ENCODED] and [MAX_ENCODED] (the instants of the years
    1 to 9999, zero and the negative ones before 1970 among them) and
    encoding the datetime gives the integer back; outside these bounds
    decoding raises. *)
Theorem timestamp_round_trip :
  (forall t, valid_datetime t = true -> dt_utcoffset t = Some 0 ->
     exists n t',
       ComplexDateTimeField._convert_from_datetime (PyDatetime t) = Return n
       /\ ComplexDateTimeField._convert_from_db (PyInt n) = Return t'
       /\ datetime_eq t' t = Return true)
  /\ (forall n, MIN_ENCODED <= n <= MAX_ENCODED ->
        exists t,
          ComplexDateTimeField._convert_from_db (PyInt n) = Return t
          /\ ComplexDateTimeField._convert_from_datetime (PyDatetime t)
             = Return n)
  /\ (forall n, ~ (MIN_ENCODED <= n <= MAX_ENCODED) ->
        exists e, ComplexDateTimeField._convert_from_db (PyInt n) = Raise e).
Proof.
  unfold ComplexDateTimeField._convert_from_datetime,
    ComplexDateTimeField._convert_from_db.
  split; [| split].
  - intros t Hv Hu. pose proof (encode_utc t Hu) as He.
    eexists _, _. rewrite He. split; [reflexivity |].
    rewrite (decode_encode t _ Hv He). split; [reflexivity |].
    rewrite datetime_eq_utc by (assumption || reflexivity).
    unfold fields. cbn [year month day hour minute second microsecond].
    rewrite cmp_tuple_refl. reflexivity.
  - intros n Hn. destruct (decode_in_range n Hn) as (t & Hd & _ & _ & He).
    exists t. rewrite Hd, He. split; reflexivity.
  - intros n Hn. rewrite (decode_out_of_range n Hn). eexists. reflexivity.
Qed.

(** The round trip at the datetime of the spec's example, and at the last
    microsecond before the epoch. *)
Example round_trip_examples :
  encode t_example = Return 1615804200123456
  /\ decode 1615804200123456 = Return t_example
  /\ decode (-1)
     = Return (Datetime 1969 12 31 23 59 59 999999 (Some tzutc))
  /\ encode (Datetime 1969 12 31 23 59 59 999999 (Some tzutc)) = Return (-1)
  /\ decode 0 = Return (Datetime 1970 1 1 0 0 0 0 (Some tzutc)).
Proof. repeat split; reflexivity. Qed.

(** C1, as stated, fails: the largest 64-bit integer decodes to no datetime,
    the year being far beyond 9999. *)
Lemma round_trip_fails_beyond_year_9999 :
  ~ (forall n, - 2 ^ 63 <= n < 2 ^ 63 ->
       exists t,
         ComplexDateTimeField._convert_from_db (PyInt n) = Return t
         /\ ComplexDateTimeField._convert_from_datetime (PyDatetime t)
            = Return n).
Proof.
  intros H. destruct (H (2 ^ 63 - 1)) as (t & Hd & _); [lia |].
  vm_compute in Hd. discriminate.
Qed.

(** C2: for valid datetimes in UTC, the order of the encodings is the order
    of the datetimes: [t1 < t2] exactly when the integer of [t1] is below the
    integer of [t2], and likewise for [==] and for [t2 < t1]. *)
Theorem encode_preserves_order t1 t2 n1 n2 :
  valid_datetime t1 = true -> valid_datetime t2 = true ->
  ComplexDateTimeField._convert_from_datetime (PyDatetime t1) = Return n1 ->
  ComplexDateTimeField._convert_from_datetime (PyDatetime t2) = Return n2 ->
  (datetime_lt t1 t2 = Return true <-> n1 < n2)
  /\ (datetime_eq t1 t2 = Return true <-> n1 = n2)
  /\ (datetime_lt t2 t1 = Return true <-> n2 < n1).
Proof.
  unfold ComplexDateTimeField._convert_from_datetime. intros Hv1 Hv2 He1 He2.
  assert (He1' : encode t1 = Return n1) by (destruct (encode t1); exact He1).
  assert (He2' : encode t2 = Return n2) by (destruct (encode t2); exact He2).
  pose proof (encode_returns_utc _ _ He1') as Hu1.
  pose proof (encode_returns_utc _ _ He2') as Hu2.
  rewrite !datetime_lt_utc, datetime_eq_utc by assumption.
  rewrite (cmp_tuple_encode t1 t2 n1 n2), (cmp_tuple_encode t2 t1 n2 n1)
    by assumption.
  destruct (Z.compare_spec n1 n2), (Z.compare_spec n2 n1); try lia;
    cbn; (repeat split; intros; try lia; try discriminate; try reflexivity).
Qed.

Lemma encode_preserves_order_witness :
  (datetime_lt t_example t_later = Return true
   <-> 1615804200123456 < 1615804200123457)
  /\ (datetime_eq t_example t_later = Return true
      <-> 1615804200123456 = 1615804200123457)
  /\ (datetime_lt t_later t_example = Return true
      <-> 1615804200123457 < 1615804200123456).
Proof.
  apply (encode_preserves_order t_example t_later); reflexivity.
Defined.

(** C3: encoding a datetime raises the ValueError of the time zone check
    when it has no [tzinfo], and when the offset of its [tzinfo] is not zero
    (or not given); with a [tzinfo] of offset zero it returns an integer. *)
Theorem encode_rejects_non_utc (t : datetime) :
  (dt_tzinfo t = None ->
     ComplexDateTimeField._convert_from_datetime (PyDatetime t)
     = Raise UTC_ERROR)
  /\ (forall tz, dt_tzinfo t = Some tz -> utcoffset tz <> Some 0 ->
        ComplexDateTimeField._convert_from_datetime (PyDatetime t)
        = Raise UTC_ERROR)
  /\ (forall tz, dt_tzinfo t = Some tz -> utcoffset tz = Some 0 ->
        exists n,
          ComplexDateTimeField._convert_from_datetime (PyDatetime t)
          = Return n).
Proof.
  unfold ComplexDateTimeField._convert_from_datetime. split; [| split].
  - intros Hn. rewrite encode_not_utc; [reflexivity |].
    unfold dt_utcoffset. rewrite Hn. discriminate.
  - intros tz Htz Hoff. rewrite encode_not_utc; [reflexivity |].
    unfold dt_utcoffset. rewrite Htz. exact Hoff.
  - intros tz Htz Hoff. rewrite encode_utc; [eexists; reflexivity |].
    unfold dt_utcoffset. rewrite Htz. exact Hoff.
Qed.

(** A naive datetime, one at +01:00 and one whose [tzinfo] gives no offset
    are refused. *)
Example encode_rejects_examples :
  encode (Datetime 2021 3 15 10 30 0 0 None) = Raise UTC_ERROR
  /\ encode (Datetime 2021 3 15 10 30 0 0 (Some (Tz "CET" (Some 3600000000))))
     = Raise UTC_ERROR
  /\ encode (Datetime 2021 3 15 10 30 0 0 (Some (Tz "?" None)))
     = Raise UTC_ERROR.
Proof. repeat split; reflexivity. Qed.

(** C8: [to_python] returns the decoded datetime when the conversion
    returns one, and its argument unchanged when the conversion raises,
    whatever it raises; a datetime comes back unchanged, an integer within
    the bounds comes back as the datetime it encodes. [to_python] is a total
    function to values: it has no raising outcome. *)
Theorem to_python_never_raises (value : pyval) :
  (forall t, ComplexDateTimeField._convert_from_db value = Return t ->
     ComplexDateTimeField.to_python value = PyDatetime t)
  /\ (forall e, ComplexDateTimeField._convert_from_db value = Raise e ->
        ComplexDateTimeField.to_python value = value)
  /\ (forall t, value = PyDatetime t ->
        ComplexDateTimeField.to_python value = value)
  /\ (forall n, value = PyInt n -> MIN_ENCODED <= n <= MAX_ENCODED ->
        exists t,
          ComplexDateTimeField.to_python value = PyDatetime t
          /\ ComplexDateTimeField._convert_from_datetime (PyDatetime t)
             = Return n).
Proof.
  unfold ComplexDateTimeField.to_python. split; [| split; [| split]].
  - intros t ->. reflexivity.
  - intros e ->. reflexivity.
  - intros t ->. reflexivity.
  - intros n -> Hn.
    destruct (decode_in_range n Hn) as (t & Hd & _ & _ & He).
    exists t. unfold ComplexDateTimeField._convert_from_db,
      ComplexDateTimeField._convert_from_datetime.
    rewrite Hd, He. split; reflexivity.
Qed.

(** What [to_python] leaves as it is: [None], a float, a string, an integer
    beyond the year 9999; and [True] counts as the integer 1. *)
Example to_python_examples :
  ComplexDateTimeField.to_python PyNone = PyNone
  /\ ComplexDateTimeField.to_python (PyFloat (FFinite 3 (-1)))
     = PyFloat (FFinite 3 (-1))
  /\ ComplexDateTimeField.to_python (PyStr (str "2021")) = PyStr (str "2021")
  /\ ComplexDateTimeField.to_python (PyInt (2 ^ 63 - 1)) = PyInt (2 ^ 63 - 1)
  /\ ComplexDateTimeField.to_python (PyBool true)
     = PyDatetime (Datetime 1970 1 1 0 0 0 1 (Some tzutc)).
Proof. repeat split; reflexivity. Qed.

(** C10, as stated, fails on a field with a default: a write of [None]
    stores the default, and a read gives the default back, not [None]. *)
Lemma none_is_replaced_by_the_default :
  ~ (forall (self : ComplexDateTimeField.t) (instance : gmap string pyval),
       ComplexDateTimeField.__set__ self instance PyNone
       = Return (<[ComplexDateTimeField.name self := PyNone]> instance)
       /\ exists instance',
            ComplexDateTimeField.__set__ self instance PyNone
            = Return instance'
            /\ ComplexDateTimeField.__get__ self instance' = Return PyNone).
Proof.
  intros H. destruct (H start_timestamp ∅) as [_ (instance' & Hs & Hg)].
  vm_compute in Hs. injection Hs as <-. vm_compute in Hg. discriminate.
Qed.

(** C10, as amended: [__set__] converts the truthy values only, and hands
    a falsy value, [None] among them, to the setter of the base class as it
    is, raising nothing; a falsy value other than [None] is stored as it is;
    [None] is stored as it is by a field that is [null] or has no default,
    and the default is stored in its place otherwise. [__get__] returns
    [None] for a stored [None] and a stored datetime as it is, without
    decoding. So [None] set is [None] got on a field that is [null] or has no
    default, and on a field whose default is a datetime [None] set is that
    datetime got. *)
Theorem falsy_values_pass_through
        (self : ComplexDateTimeField.t) (instance : gmap string pyval) :
  (forall value, truthy value = false ->
     ComplexDateTimeField.__set__ self instance value
     = Return (ComplexDateTimeField.super_set self instance value))
  /\ (forall value, truthy value = false -> value <> PyNone ->
        ComplexDateTimeField.__set__ self instance value
        = Return (<[ComplexDateTimeField.name self := value]> instance))
  /\ (ComplexDateTimeField.null self = true
      \/ ComplexDateTimeField.default self = None ->
        ComplexDateTimeField.__set__ self instance PyNone
        = Return (<[ComplexDateTimeField.name self := PyNone]> instance))
  /\ (forall value,
        ComplexDateTimeField.null self = false ->
        ComplexDateTimeField.default self = Some value ->
        ComplexDateTimeField.__set__ self instance PyNone
        = Return (<[ComplexDateTimeField.name self := value]> instance))
  /\ (forall value n, truthy value = true ->
        ComplexDateTimeField._convert_from_datetime value = Return n ->
        ComplexDateTimeField.__set__ self instance value
        = Return (<[ComplexDateTimeField.name self := PyInt n]> instance))
  /\ (instance !! ComplexDateTimeField.name self = Some PyNone ->
        ComplexDateTimeField.__get__ self instance = Return PyNone)
  /\ (forall t,
        instance !! ComplexDateTimeField.name self = Some (PyDatetime t) ->
        ComplexDateTimeField.__get__ self instance = Return (PyDatetime t))
  /\ (ComplexDateTimeField.null self = true
      \/ ComplexDateTimeField.default self = None ->
        exists instance',
          ComplexDateTimeField.__set__ self instance PyNone = Return instance'
          /\ ComplexDateTimeField.__get__ self instance' = Return PyNone)
  /\ (forall t,
        ComplexDateTimeField.null self = false ->
        ComplexDateTimeField.default self = Some (PyDatetime t) ->
        exists instance',
          ComplexDateTimeField.__set__ self instance PyNone = Return instance'
          /\ ComplexDateTimeField.__get__ self instance'
             = Return (PyDatetime t)).
Proof.
  assert (Hnone : ComplexDateTimeField.null self = true
                  \/ ComplexDateTimeField.default self = None ->
                  ComplexDateTimeField.super_set self instance PyNone
                  = <[ComplexDateTimeField.name self := PyNone]> instance).
  { unfold ComplexDateTimeField.super_set.
    intros [-> | ->]; [reflexivity |].
    destruct (ComplexDateTimeField.null self); reflexivity. }
  assert (Hdefault : forall value,
             ComplexDateTimeField.null self = false ->
             ComplexDateTimeField.default self = Some value ->
             ComplexDateTimeField.super_set self instance PyNone
             = <[ComplexDateTimeField.name self := value]> instance).
  { unfold ComplexDateTimeField.super_set. intros value -> ->. reflexivity. }
  unfold ComplexDateTimeField.__set__, ComplexDateTimeField.__get__,
    ComplexDateTimeField.super_get.
  split; [| split; [| split; [| split; [| split; [| split; [| split;
    [| split]]]]]]].
  - intros value ->. reflexivity.
  - intros value -> Hv. destruct value; try reflexivity. congruence.
  - intros Hn. cbn [truthy]. rewrite <- (Hnone Hn). reflexivity.
  - intros value Hn Hd. cbn [truthy]. rewrite <- (Hdefault value Hn Hd).
    reflexivity.
  - intros value n -> ->. reflexivity.
  - intros ->. reflexivity.
  - intros t ->. reflexivity.
  - intros Hn. eexists. split; [reflexivity |].
    cbn [truthy mbind result_bind Py.bind]. rewrite (Hnone Hn).
    rewrite lookup_insert_eq. reflexivity.
  - intros t Hn Hd. eexists. split; [reflexivity |].
    cbn [truthy mbind result_bind Py.bind]. rewrite (Hdefault _ Hn Hd).
    rewrite lookup_insert_eq. reflexivity.
Qed.

(** Zero is stored as it is; a naive datetime, which is truthy, is refused;
    a datetime in UTC is stored as its integer; and [None], written to the
    field whose default is a datetime, stores that datetime, unconverted. *)
Example set_examples :
  ComplexDateTimeField.__set__ end_timestamp ∅ (PyInt 0)
  = Return {["end_timestamp"%string := PyInt 0]}
  /\ ComplexDateTimeField.__set__ end_timestamp ∅
       (PyDatetime (Datetime 2021 3 15 10 30 0 0 None))
     = Raise UTC_ERROR
  /\ ComplexDateTimeField.__set__ end_timestamp ∅ (PyDatetime t_example)
     = Return {["end_timestamp"%string := PyInt 1615804200123456]}
  /\ ComplexDateTimeField.__set__ end_timestamp ∅ PyNone
     = Return {["end_timestamp"%string := PyNone]}
  /\ ComplexDateTimeField.__set__ start_timestamp ∅ PyNone
     = Return {["start_timestamp"%string := PyDatetime t_example]}.
Proof. repeat split; reflexivity. Qed.

(** ** Dictionaries *)

Lemma dict_set_fresh k v d :
  k ∉ map fst d -> dict_set k v d = d ++ [(k, v)].
Proof.
  induction d as [| [k' v'] d IH]; intros Hk; [reflexivity |].
  cbn in *. apply not_elem_of_cons in Hk as [Hne Hk].
  rewrite decide_False by assumption. rewrite IH by assumption. reflexivity.
Qed.

Lemma dict_of_items_NoDup items :
  NoDup (map fst items) -> dict_of_items items = items.
Proof.
  unfold dict_of_items.
  enough (H : forall acc,
             NoDup (map fst (acc ++ items)) ->
             fold_left (fun d '(k, v) => dict_set k v d) items acc
             = acc ++ items)
    by (intros Hnd; apply (H []); exact Hnd).
  induction items as [| [k v] items IH]; intros acc Hnd; cbn.
  - rewrite app_nil_r. reflexivity.
  - rewrite dict_set_fresh.
    + rewrite IH; rewrite <- app_assoc; [reflexivity | exact Hnd].
    + rewrite map_app in Hnd. apply NoDup_app in Hnd as (_ & Hdisj & _).
      intros Hin. apply (Hdisj k Hin). cbn. left.
Qed.

Lemma dict_get_NoDup k v d :
  NoDup (map fst d) -> (k, v) ∈ d -> dict_get k d = Some v.
Proof.
  induction d as [| [k' v'] d IH]; intros Hnd Hin; [inversion Hin |].
  cbn in *. apply NoDup_cons in Hnd as [Hk' Hnd].
  apply elem_of_cons in Hin as [Heq | Hin].
  - injection Heq as <- <-. rewrite decide_True by reflexivity. reflexivity.
  - destruct (decide (k = k')) as [-> | Hne]; [| auto].
    exfalso. apply Hk'. apply list_elem_of_fmap. exists (k', v). auto.
Qed.

(** ** Induction on values, through the sequences and the mappings *)

Lemma pyval_nested_ind (P : pyval -> Prop) :
  P PyNone -> (forall b, P (PyBool b)) -> (forall n, P (PyInt n)) ->
  (forall f, P (PyFloat f)) -> (forall s, P (PyStr s)) ->
  (forall b, P (PyBytes b)) -> (forall dt, P (PyDatetime dt)) ->
  (forall l, Forall P l -> P (PyList l)) ->
  (forall d, Forall (fun kv => P (snd kv)) d -> P (PyDict d)) ->
  forall v, P v.
Proof.
  intros HNone HBool HInt HFloat HStr HBytes HDt HList HDict.
  fix IH 1. intros [| b | n | f | s | b | dt | l | d].
  - exact HNone.
  - apply HBool.
  - apply HInt.
  - apply HFloat.
  - apply HStr.
  - apply HBytes.
  - apply HDt.
  - apply HList. induction l as [| x l IHl]; constructor; [apply IH | exact IHl].
  - apply HDict.
    induction d as [| [k v] d IHd]; constructor; [apply IH | exact IHd].
Qed.

(** ** The reference backend decodes what it encodes *)

Module RefJSONFacts.
Import RefJSON.
Local Open Scope N_scope.

Ltac split_tests :=
  repeat match goal with
    | |- context [if ?b then _ else _] => destruct b eqn:?
    end;
  rewrite ?andb_true_iff, ?andb_false_iff, ?orb_true_iff, ?orb_false_iff,
    ?N.leb_le, ?N.leb_gt, ?N.ltb_lt, ?N.ltb_ge, ?N.eqb_eq, ?N.eqb_neq in *.

Lemma hex_value_digit n : n < 16 -> hex_value (hex_digit n) = Some n.
Proof.
  intros Hn. unfold hex_value, hex_digit.
  destruct (N.ltb_spec n 10); split_tests; try lia; f_equal; lia.
Qed.

Lemma hex4_control c :
  c < 32 -> hex4 48 48 (hex_digit (c / 16)) (hex_digit (c mod 16)) = Some c.
Proof.
  intros Hc. unfold hex4.
  change (hex_value 48) with (Some 0). cbn [mbind option_bind].
  assert (H1 : c / 16 < 16) by (apply N.Div0.div_lt_upper_bound; lia).
  assert (H2 : c mod 16 < 16) by (apply N.mod_lt; lia).
  rewrite !hex_value_digit by assumption. cbn [mbind option_bind].
  f_equal. pose proof (N.div_mod c 16 ltac:(lia)). lia.
Qed.

Lemma parse_chars_print s rest :
  parse_chars (flat_map escape_char s ++ 34 :: rest) = Some (s, rest).
Proof.
  induction s as [| c s IH]; [reflexivity |].
  cbn [flat_map]. rewrite <- app_assoc. unfold escape_char at 1.
  destruct (N.eqb_spec c 34) as [-> | H34].
  { cbn [app parse_chars]. cbn. rewrite IH. reflexivity. }
  destruct (N.eqb_spec c 92) as [-> | H92].
  { cbn [app parse_chars]. cbn. rewrite IH. reflexivity. }
  destruct (N.ltb_spec c 32) as [Hlt | Hge].
  - cbn [app parse_chars].
    change (92 =? 34) with false. change (92 =? 92) with true.
    change (117 =? 34) with false. change (117 =? 92) with false.
    change (117 =? 47) with false. change (117 =? 117) with true.
    cbn [orb]. rewrite hex4_control by assumption.
    cbn [mbind option_bind]. rewrite IH. reflexivity.
  - cbn [app parse_chars].
    rewrite (proj2 (N.eqb_neq c 34)), (proj2 (N.eqb_neq c 92)) by assumption.
    rewrite (proj2 (N.ltb_ge c 32)) by assumption.
    rewrite IH. reflexivity.
Qed.

Lemma parse_uint_print u rest :
  no_digit rest -> parse_uint (print_uint u ++ rest) = (u, rest).
Proof.
  intros Hrest.
  induction u; cbn [print_uint app parse_uint];
    try (change (is_digit _) with true; cbv iota; rewrite IHu; reflexivity).
  destruct rest as [| c r]; [reflexivity |].
  cbn in Hrest. cbn [parse_uint]. rewrite Hrest. reflexivity.
Qed.

Lemma print_uint_head u :
  u <> Decimal.Nil ->
  exists c r, print_uint u = c :: r /\ is_digit c = true.
Proof. destruct u; [congruence | ..]; intros _; eexists _, _; split; reflexivity. Qed.

Lemma to_int_nonnil n :
  match Z.to_int n with
  | Decimal.Pos u | Decimal.Neg u => u <> Decimal.Nil
  end.
Proof.
  destruct n as [| p | p]; cbn; [discriminate | ..];
    apply DecimalPos.Unsigned.to_uint_nonnil.
Qed.

Lemma parse_int_print n rest :
  no_digit rest -> parse_int (print_int n ++ rest) = Some (n, rest).
Proof.
  intros Hrest. unfold print_int.
  pose proof (to_int_nonnil n) as Hnn. pose proof (DecimalZ.of_to n) as Hof.
  destruct (Z.to_int n) as [u | u].
  - destruct (print_uint_head u Hnn) as (c & r & Hp & Hc).
    unfold parse_int. rewrite Hp. cbn [app].
    assert (Hne : (c =? 45) = false).
    { apply N.eqb_neq. intros ->. discriminate. }
    rewrite Hne. change (c :: r ++ rest) with ((c :: r) ++ rest).
    rewrite <- Hp, parse_uint_print by assumption.
    destruct u; [congruence | ..]; rewrite Hof; reflexivity.
  - unfold parse_int. cbn [app]. change (45 =? 45) with true. cbv iota.
    rewrite parse_uint_print by assumption.
    destruct u; [congruence | ..]; rewrite Hof; reflexivity.
Qed.

(** A number starts with a digit or the minus sign. *)
Lemma print_int_head n :
  exists c r, print_int n = c :: r /\ (is_digit c = true \/ c = 45).
Proof.
  unfold print_int. pose proof (to_int_nonnil n) as Hnn.
  destruct (Z.to_int n) as [u | u].
  - destruct (print_uint_head u Hnn) as (c & r & -> & Hc). eauto.
  - eauto.
Qed.

(** A float starts as the integer it starts with. *)
Lemma print_float_head m e :
  exists c r, print_float m e = c :: r /\ (is_digit c = true \/ c = 45).
Proof.
  unfold print_float.
  destruct (e <? 0)%Z;
    match goal with
    | |- context [print_int ?n ++ _] =>
        destruct (print_int_head n) as (c & r & -> & Hc)
    end; cbn [app]; eauto.
Qed.

Lemma number_head c :
  is_digit c = true \/ c = 45 ->
  c <> 110 /\ c <> 116 /\ c <> 102 /\ c <> 34 /\ c <> 91 /\ c <> 123
  /\ c <> 93 /\ c <> 44 /\ c <> 125.
Proof.
  intros [Hc | ->]; [| repeat split; discriminate].
  unfold is_digit in Hc. apply andb_true_iff in Hc as [H1 H2].
  apply N.leb_le in H1, H2. lia.
Qed.

Lemma print_value_head v :
  serializable v = true ->
  exists c r, print_value v = c :: r /\ c <> 93 /\ c <> 44 /\ c <> 125.
Proof.
  destruct v as [| [|] | n | [| neg | m e] | s | b | dt | [| x l] | [| kv d]];
    try discriminate; intros _;
    try (eexists _, _; split; [reflexivity | repeat split; discriminate]).
  - destruct (print_int_head n) as (c & r & Hp & Hc).
    exists c, r. split; [exact Hp |].
    destruct (number_head c Hc) as (_ & _ & _ & _ & _ & _ & H). exact H.
  - destruct (print_float_head m e) as (c & r & Hp & Hc).
    exists c, r. split; [exact Hp |].
    destruct (number_head c Hc) as (_ & _ & _ & _ & _ & _ & H). exact H.
Qed.

Lemma number_end_no_digit rest : number_end rest -> no_digit rest.
Proof. destruct rest as [| c r]; [trivial |]. intros [H _]. exact H. Qed.

Lemma number_end_elements (pv : pyval -> text) l rest :
  number_end (print_elements pv l ++ rest).
Proof. destruct l; split; (reflexivity || discriminate). Qed.

Lemma number_end_members (pv : pyval -> text) d rest :
  number_end (print_members pv d ++ rest).
Proof. destruct d; split; (reflexivity || discriminate). Qed.

(** An integer that no exponent follows is read as an integer. *)
Lemma parse_number_int n rest :
  number_end rest -> parse_number (print_int n ++ rest) = Some (PyInt n, rest).
Proof.
  intros Hrest. unfold parse_number.
  rewrite parse_int_print by (apply number_end_no_digit; exact Hrest).
  cbn [mbind option_bind]. destruct rest as [| c r]; [reflexivity |].
  destruct Hrest as [_ Hc].
  rewrite (proj2 (N.eqb_neq c 101)) by exact Hc. reflexivity.
Qed.

(** A float is read as the float of its value. *)
Lemma parse_number_float m e rest :
  number_end rest ->
  parse_number (print_float m e ++ rest)
  = Some (PyFloat (read_float (FFinite m e)), rest).
Proof.
  intros Hrest. apply number_end_no_digit in Hrest.
  unfold parse_number, print_float, read_float.
  destruct (Z.ltb_spec e 0) as [He | He]; rewrite <- app_assoc; cbn [app];
    rewrite parse_int_print by reflexivity;
    cbn [mbind option_bind]; change (101 =? 101) with true; cbv iota;
    rewrite parse_int_print by exact Hrest;
    cbn [mbind option_bind]; unfold parse_float.
  - assert (Hp : (5 ^ (- e) <> 0)%Z) by (apply Z.pow_nonzero; lia).
    rewrite (proj2 (Z.leb_gt 0 e)) by exact He.
    rewrite Z.mod_mul by exact Hp. rewrite Z.div_mul by exact Hp.
    reflexivity.
  - change (0 <=? 0)%Z with true. cbv iota.
    change (5 ^ 0)%Z with 1%Z. rewrite Z.mul_1_r. reflexivity.
Qed.

(** What starts as a number is read as a number. *)
Lemma parse_value_number fuel c r :
  is_digit c = true \/ c = 45 ->
  parse_value (S fuel) (c :: r) = parse_number (c :: r).
Proof.
  intros Hc. destruct (number_head c Hc) as (? & ? & ? & ? & ? & ? & _).
  cbn [parse_value]. rewrite !(proj2 (N.eqb_neq c _)) by assumption.
  reflexivity.
Qed.

Lemma parse_value_int fuel n rest :
  (0 < fuel)%nat -> number_end rest ->
  parse_value fuel (print_int n ++ rest) = Some (PyInt n, rest).
Proof.
  intros Hf Hrest. destruct fuel as [| fuel]; [lia |].
  rewrite <- (parse_number_int n rest Hrest).
  destruct (print_int_head n) as (c & r & -> & Hc).
  apply parse_value_number. exact Hc.
Qed.

Lemma parse_value_float fuel m e rest :
  (0 < fuel)%nat -> number_end rest ->
  parse_value fuel (print_float m e ++ rest)
  = Some (PyFloat (read_float (FFinite m e)), rest).
Proof.
  intros Hf Hrest. destruct fuel as [| fuel]; [lia |].
  rewrite <- (parse_number_float m e rest Hrest).
  destruct (print_float_head m e) as (c & r & -> & Hc).
  apply parse_value_number. exact Hc.
Qed.

Lemma read_value_keys (d : list (text * pyval)) :
  map fst (map (fun kv => (fst kv, read_value (snd kv))) d) = map fst d.
Proof. rewrite map_map. reflexivity. Qed.

Lemma parse_elements_print l :
  Forall reads_back l -> forallb serializable l = true ->
  forall fuel rest,
    (fold_right (fun x n => S (size x + n)) 0%nat l < fuel)%nat ->
    parse_elements fuel (print_elements print_value l ++ rest)
    = Some (map read_value l, rest).
Proof.
  induction 1 as [| x l Hx Hl IH]; intros Hs fuel rest Hf.
  - destruct fuel; [lia | reflexivity].
  - cbn in Hs. apply andb_true_iff in Hs as [Hsx Hsl].
    cbn [fold_right] in Hf. destruct fuel as [| fuel]; [lia |].
    cbn [print_elements app parse_elements].
    change (44 =? 93) with false. change (44 =? 44) with true. cbv iota.
    rewrite <- app_assoc.
    rewrite (Hx Hsx) by (lia || apply number_end_elements).
    cbn [mbind option_bind]. rewrite IH by (assumption || lia). reflexivity.
Qed.

Lemma parse_member_print fuel k v rest :
  reads_back v -> serializable v = true -> (size v < fuel)%nat ->
  number_end rest ->
  parse_member (parse_value fuel) (print_member print_value (k, v) ++ rest)
  = Some ((k, read_value v), rest).
Proof.
  intros Hv Hs Hf Hrest. unfold print_member, print_string. cbn [fst snd].
  cbn [app parse_member]. change (34 =? 34) with true. cbv iota.
  rewrite <- !app_assoc. cbn [app]. rewrite parse_chars_print.
  cbn [mbind option_bind expect]. change (58 =? 58) with true. cbv iota.
  cbn [mbind option_bind].
  rewrite (Hv Hs) by assumption. reflexivity.
Qed.

Lemma parse_members_print d :
  Forall (fun kv => reads_back (snd kv)) d ->
  forallb (fun kv => serializable (snd kv)) d = true ->
  forall fuel rest,
    (fold_right (fun kv n => S (size (snd kv) + n)) 0%nat d < fuel)%nat ->
    parse_members fuel (print_members print_value d ++ rest)
    = Some (map (fun kv => (fst kv, read_value (snd kv))) d, rest).
Proof.
  induction 1 as [| [k v] d Hx Hl IH]; intros Hs fuel rest Hf.
  - destruct fuel; [lia | reflexivity].
  - cbn in Hs. apply andb_true_iff in Hs as [Hsx Hsl].
    cbn [fold_right snd] in Hf. destruct fuel as [| fuel]; [lia |].
    cbn [print_members app parse_members].
    change (44 =? 125) with false. change (44 =? 44) with true. cbv iota.
    rewrite <- app_assoc.
    rewrite parse_member_print
      by (assumption || lia || apply number_end_members).
    cbn [mbind option_bind]. rewrite IH by (assumption || lia). reflexivity.
Qed.

Lemma parse_value_print v : reads_back v.
Proof.
  induction v as [| b | n | f | s | b | dt | l IH | d IH]
    using pyval_nested_ind; intros Hs fuel rest Hf Hrest;
    try discriminate.
  - destruct fuel; [lia | reflexivity].
  - destruct fuel; [lia |]. destruct b; reflexivity.
  - apply parse_value_int; [lia | assumption].
  - destruct f as [| neg | m e]; try discriminate.
    apply parse_value_float; [lia | assumption].
  - destruct fuel; [lia |]. cbn [print_value print_string app parse_value].
    change (34 =? 110) with false. change (34 =? 116) with false.
    change (34 =? 102) with false. change (34 =? 34) with true. cbv iota.
    rewrite <- app_assoc. cbn [app]. rewrite parse_chars_print. reflexivity.
  - destruct l as [| x l].
    { destruct fuel; [lia | reflexivity]. }
    cbn in Hs. apply andb_true_iff in Hs as [Hsx Hsl].
    apply Forall_cons in IH as [Hx Hl].
    cbn [size fold_right] in Hf. destruct fuel as [| fuel]; [lia |].
    cbn [print_value app parse_value].
    change (91 =? 110) with false. change (91 =? 116) with false.
    change (91 =? 102) with false. change (91 =? 34) with false.
    change (91 =? 91) with true. cbv iota.
    destruct (print_value_head x Hsx) as (c & r & Hh & Hc & _).
    assert (Hexp : expect [93] ((print_value x ++ print_elements print_value l)
                                ++ rest) = None).
    { rewrite Hh. cbn. rewrite (proj2 (N.eqb_neq c 93)) by assumption.
      reflexivity. }
    rewrite Hexp. rewrite <- app_assoc.
    rewrite (Hx Hsx) by (lia || apply number_end_elements).
    cbn [mbind option_bind].
    rewrite parse_elements_print by (assumption || (cbn [size] in *; lia)).
    reflexivity.
  - destruct d as [| [k v] d].
    { destruct fuel; [lia | reflexivity]. }
    cbn in Hs. apply andb_true_iff in Hs as [Hnd Hs].
    apply bool_decide_eq_true in Hnd.
    apply andb_true_iff in Hs as [Hsx Hsl].
    apply Forall_cons in IH as [Hx Hl]. cbn [snd] in Hx.
    cbn [size fold_right snd] in Hf. destruct fuel as [| fuel]; [lia |].
    cbn [print_value app parse_value].
    change (123 =? 110) with false. change (123 =? 116) with false.
    change (123 =? 102) with false. change (123 =? 34) with false.
    change (123 =? 91) with false. change (123 =? 123) with true. cbv iota.
    assert (Hexp : expect [125]
                     ((print_member print_value (k, v)
                       ++ print_members print_value d) ++ rest) = None)
      by reflexivity.
    rewrite Hexp. rewrite <- app_assoc.
    rewrite parse_member_print
      by (assumption || lia || apply number_end_members).
    cbn [mbind option_bind].
    rewrite parse_members_print by (assumption || (cbn [size] in *; lia)).
    cbn [mbind option_bind].
    rewrite dict_of_items_NoDup; [reflexivity |].
    cbn [map fst]. rewrite read_value_keys. exact Hnd.
Qed.

Lemma size_elements l :
  Forall (fun x => (size x <= length (print_value x))%nat) l ->
  (fold_right (fun x n => S (size x + n)) 0%nat l
   < length (print_elements print_value l))%nat.
Proof.
  induction 1 as [| x l Hx Hl IH]; cbn [fold_right print_elements length];
    [lia |].
  rewrite length_app. lia.
Qed.

Lemma size_members d :
  Forall (fun kv => (size (snd kv) <= length (print_value (snd kv)))%nat) d ->
  (fold_right (fun kv n => S (size (snd kv) + n)) 0%nat d
   < length (print_members print_value d))%nat.
Proof.
  induction 1 as [| kv d Hx Hl IH]; cbn [fold_right print_members length];
    [lia |].
  unfold print_member. rewrite !length_app. cbn [length]. lia.
Qed.

Lemma size_le_length v : (size v <= length (print_value v))%nat.
Proof.
  induction v as [| b | n | f | s | b | dt | l IH | d IH]
    using pyval_nested_ind; try (cbn [size]; lia).
  - destruct l as [| x l]; [cbn; lia |].
    apply Forall_cons in IH as [Hx Hl]. apply size_elements in Hl.
    cbn [size fold_right print_value length] in *. rewrite length_app. lia.
  - destruct d as [| kv d]; [cbn; lia |].
    apply Forall_cons in IH as [Hx Hl]. apply size_members in Hl.
    cbn [size fold_right print_value length] in *. unfold print_member.
    rewrite !length_app. cbn [length]. lia.
Qed.

Lemma float_eq_read m e :
  match read_float (FFinite m e) with
  | FFinite m' e' => float_eq m' e' m e = true
  | _ => False
  end.
Proof.
  unfold read_float, float_eq.
  destruct (Z.ltb_spec e 0) as [He | He]; cbv zeta.
  - apply Z.eqb_refl.
  - rewrite Z.min_l by exact He. rewrite !Z.sub_0_r.
    change (2 ^ 0)%Z with 1%Z. rewrite Z.mul_1_r. apply Z.eqb_refl.
Qed.

(** What the decoder reads is structurally equal to what was written. *)
Lemma struct_eq_read v :
  serializable v = true -> struct_eq (read_value v) v = true.
Proof.
  induction v as [| b | n | f | s | b | dt | l IH | d IH]
    using pyval_nested_ind; intros Hs; try discriminate.
  - reflexivity.
  - destruct b; reflexivity.
  - cbn. apply Z.eqb_refl.
  - destruct f as [| neg | m e]; try discriminate.
    pose proof (float_eq_read m e) as Hf. cbn [read_value].
    destruct (read_float (FFinite m e)) as [| neg' | m' e'];
      [contradiction | contradiction | exact Hf].
  - cbn. apply bool_decide_eq_true. reflexivity.
  - cbn [read_value struct_eq]. cbn [serializable] in Hs.
    induction IH as [| x l Hx Hl IHl]; [reflexivity |].
    cbn in Hs. apply andb_true_iff in Hs as [Hsx Hsl].
    cbn [map]. rewrite (Hx Hsx). cbn [andb]. apply IHl. exact Hsl.
  - cbn [read_value struct_eq]. cbn [serializable] in Hs.
    apply andb_true_iff in Hs as [Hnd Hs]. apply bool_decide_eq_true in Hnd.
    rewrite length_map, Nat.eqb_refl. cbn [andb].
    apply forallb_forall. intros kv' Hin'.
    apply in_map_iff in Hin' as ([k v] & <- & Hin). cbn [fst snd].
    apply list_elem_of_In in Hin.
    rewrite (dict_get_NoDup k v d Hnd Hin).
    rewrite Forall_forall in IH. apply (IH (k, v) Hin).
    rewrite forallb_forall in Hs. apply (Hs (k, v)).
    apply list_elem_of_In. exact Hin.
Qed.

Lemma ref_loads_dumps v data :
  ref_dumps v = Return data -> ref_loads data = Return (read_value v).
Proof.
  unfold ref_dumps, ref_loads. destruct (serializable v) eqn:Hs; [| discriminate].
  intros Hd. injection Hd as <-.
  pose proof (parse_value_print v Hs (S (length (print_value v))) []) as Hp.
  rewrite app_nil_r in Hp. rewrite Hp; [reflexivity | | exact I].
  pose proof (size_le_length v). lia.
Qed.

Lemma lib_round_trips : round_trips lib.
Proof.
  intros v data _ Hd. exists (read_value v).
  split; [apply ref_loads_dumps; exact Hd |].
  apply struct_eq_read. unfold lib, dumps, ref_dumps in Hd.
  destruct (serializable v); [reflexivity | discriminate].
Qed.

End RefJSONFacts.

(** ** Escaped keys *)

(** Unescaping undoes escaping on the characters that are no escapes. *)
Lemma unescape_escape_char c :
  c ∉ ESCAPED ->
  translate_char UNESCAPE_TRANSLATION (translate_char ESCAPE_TRANSLATION c) = c.
Proof.
  intros Hc. cbn.
  destruct (N.eqb_spec c 46) as [-> | H46]; [reflexivity |].
  destruct (N.eqb_spec c 36) as [-> | H36]; [reflexivity |].
  destruct (N.eqb_spec c 65294) as [-> | H1]; [exfalso; apply Hc; set_solver |].
  destruct (N.eqb_spec c 65284) as [-> | H2]; [exfalso; apply Hc; set_solver |].
  reflexivity.
Qed.

Lemma unescape_escape_key k :
  plain_key k = true ->
  translate_key UNESCAPE_TRANSLATION (translate_key ESCAPE_TRANSLATION k) = k.
Proof.
  unfold translate_key, plain_key. induction k as [| c k IH]; [reflexivity |].
  cbn [forallb map]. intros H. apply andb_true_iff in H as [Hc Hk].
  apply negb_true_iff, bool_decide_eq_false in Hc.
  rewrite unescape_escape_char by exact Hc. rewrite IH by exact Hk. reflexivity.
Qed.

Lemma escaped_keys_NoDup (d : list (text * pyval)) (f : pyval -> pyval) :
  NoDup (map fst d) ->
  forallb (fun kv => plain_key (fst kv)) d = true ->
  NoDup (map fst (map (fun kv => (translate_key ESCAPE_TRANSLATION (fst kv),
                                  f (snd kv))) d)).
Proof.
  intros Hnd Hp. rewrite map_map. cbn [fst].
  assert (Heq : map (fun kv : text * pyval =>
                       translate_key ESCAPE_TRANSLATION (fst kv)) d
                = map (translate_key ESCAPE_TRANSLATION) (map fst d))
    by (rewrite map_map; reflexivity).
  rewrite Heq.
  assert (Hpk : Forall (fun k => plain_key k = true) (map fst d)).
  { apply Forall_forall. intros k Hk. apply list_elem_of_fmap in Hk as (kv & -> & Hin).
    rewrite forallb_forall in Hp. apply Hp. apply list_elem_of_In. exact Hin. }
  clear Heq Hp. induction Hnd as [| k ks Hk Hnd IH]; [constructor |].
  apply Forall_cons in Hpk as [Hpk Hpks]. cbn [map]. constructor; [| auto].
  intros Hin. apply Hk.
  apply list_elem_of_fmap in Hin as (k' & Heq & Hin').
  assert (k = k') as ->; [| exact Hin'].
  rewrite Forall_forall in Hpks.
  rewrite <- (unescape_escape_key k), <- (unescape_escape_key k') by auto.
  rewrite Heq. reflexivity.
Qed.

Lemma unescape_escape v :
  plain_keys v = true -> unescape_chars (escape_chars v) = v.
Proof.
  unfold unescape_chars, escape_chars.
  induction v as [| b | n | f | s | b | dt | l IH | d IH]
    using pyval_nested_ind; intros Hp; try reflexivity.
  cbn [plain_keys] in Hp. apply andb_true_iff in Hp as [Hnd Hp].
  apply bool_decide_eq_true in Hnd.
  assert (Hk : forallb (fun kv : text * pyval => plain_key (fst kv)) d = true).
  { apply forallb_forall. intros kv Hin. rewrite forallb_forall in Hp.
    apply Hp in Hin. apply andb_true_iff in Hin as [H _]. exact H. }
  cbn [_translate_chars].
  rewrite (dict_of_items_NoDup
             (map (fun kv => (translate_key ESCAPE_TRANSLATION (fst kv),
                              _translate_chars ESCAPE_TRANSLATION (snd kv))) d))
    by (apply escaped_keys_NoDup; assumption).
  rewrite map_map. cbn [fst snd].
  assert (Hid : map (fun kv : text * pyval =>
                       (translate_key UNESCAPE_TRANSLATION
                          (translate_key ESCAPE_TRANSLATION (fst kv)),
                        _translate_chars UNESCAPE_TRANSLATION
                          (_translate_chars ESCAPE_TRANSLATION (snd kv)))) d
                = d).
  { clear Hnd Hk. induction IH as [| [k v] d Hv Hd IHd]; [reflexivity |].
    cbn [forallb fst snd] in Hp. apply andb_true_iff in Hp as [Hkv Hp].
    apply andb_true_iff in Hkv as [Hk Hpv].
    cbn [snd] in Hv. cbn [map fst snd].
    rewrite unescape_escape_key by exact Hk.
    rewrite (Hv Hpv). rewrite IHd by exact Hp. reflexivity. }
  rewrite Hid. rewrite dict_of_items_NoDup by exact Hnd. reflexivity.
Qed.

(** ** The struct codecs *)

Lemma to_mongo_of_dumps (self : JSONDictField.t) (value : pyval) :
  is_dict value = true ->
  JSONDictField.to_mongo self value
  = of_serialized <$> JSONDictField.call (JSONDictField.json_dumps self) value
  /\ Compat.to_mongo self value = JSONDictField.to_mongo self value.
Proof.
  intros Hd. unfold JSONDictField.to_mongo, Compat.to_mongo. rewrite Hd.
  split; reflexivity.
Qed.

(** C4, as stated, fails on its example: the legacy mapping whose key is
    [a], U+FF04, [ref] does not decode to the mapping of key [$ref]. *)
Lemma legacy_example_keeps_its_first_letter :
  Compat.to_python ref_field legacy_example
  <> Return (PyDict [(str "$ref", PyInt 1)]).
Proof. vm_compute. discriminate. Qed.

(** C4, as amended: the legacy-compatible decoding of a native mapping
    returns the mapping with its keys unescaped, through the mappings it
    maps to; it gives back every mapping of plain keys from its escaped
    form; a value that is no mapping is left as it is; and the legacy
    mapping of key [a], U+FF04, [ref] decodes to the mapping of key
    [a$ref]. *)
Theorem legacy_decode_unescapes_keys (self : JSONDictField.t) :
  (forall d, Compat.to_python self (PyDict d)
             = Return (unescape_chars (PyDict d))
             /\ is_dict (unescape_chars (PyDict d)) = true)
  /\ (forall d, plain_keys (PyDict d) = true ->
        Compat.to_python self (escape_chars (PyDict d)) = Return (PyDict d))
  /\ (forall v, is_dict v = false -> unescape_chars v = v)
  /\ Compat.to_python self legacy_example
     = Return (PyDict [(str "a$ref", PyInt 1)]).
Proof.
  split; [| split; [| split]].
  - intros d. split; reflexivity.
  - intros d Hp. rewrite <- (unescape_escape (PyDict d) Hp) at 2. reflexivity.
  - intros v Hv. destruct v; try reflexivity. discriminate.
  - reflexivity.
Qed.

(** Keys are unescaped at every depth of mappings; the values of a list
    are not walked; a key that unescapes to one already met takes its place. *)
Example unescape_examples :
  unescape_chars
    (PyDict [([FULLWIDTH_DOLLAR] ++ str "ref",
              PyDict [(str "a" ++ [65294%N] ++ str "b", PyNone)])])
  = PyDict [(str "$ref", PyDict [(str "a.b", PyNone)])]
  /\ unescape_chars
       (PyDict [(str "l", PyList [PyDict [([FULLWIDTH_DOLLAR], PyNone)]])])
     = PyDict [(str "l", PyList [PyDict [([FULLWIDTH_DOLLAR], PyNone)]])]
  /\ unescape_chars
       (PyDict [(str "$", PyInt 1); (str "x", PyInt 2);
                ([FULLWIDTH_DOLLAR], PyInt 3)])
     = PyDict [(str "$", PyInt 3); (str "x", PyInt 2)].
Proof. repeat split; reflexivity. Qed.

(** C5: on a mapping the legacy-compatible [to_mongo] is the [to_mongo] of
    [JSONDictField]: it returns what the backend's serializer returns, text
    or bytes and never a mapping, also for a mapping that was just decoded
    from the legacy format. *)
Theorem legacy_format_never_written
        (self : JSONDictField.t) (d : list (text * pyval)) :
  Compat.to_mongo self (PyDict d) = JSONDictField.to_mongo self (PyDict d)
  /\ (forall data,
        JSONDictField.call (JSONDictField.json_dumps self) (PyDict d)
        = Return data ->
        Compat.to_mongo self (PyDict d) = Return (of_serialized data))
  /\ (forall stored, Compat.to_mongo self (PyDict d) = Return stored ->
        is_text_or_binary stored = true /\ is_dict stored = false)
  /\ (forall value stored,
        Compat.to_python self (PyDict d) = Return value ->
        Compat.to_mongo self value = Return stored ->
        is_text_or_binary stored = true /\ is_dict stored = false).
Proof.
  assert (H : forall value stored,
             Compat.to_mongo self value = Return stored ->
             is_text_or_binary stored = true /\ is_dict stored = false).
  { intros value stored. unfold Compat.to_mongo.
    destruct (is_dict value); [| discriminate]. cbn.
    destruct (JSONDictField.call _ _) as [[s | b] | e]; cbn;
      intros Heq; inversion Heq; split; reflexivity. }
  split; [| split; [| split]].
  - apply (to_mongo_of_dumps self (PyDict d)). reflexivity.
  - intros data Hd. unfold Compat.to_mongo. cbn. rewrite Hd. reflexivity.
  - intros stored. apply H.
  - intros value stored _. apply H.
Qed.

(** The legacy example, decoded and encoded again on the reference backend,
    is stored as text. *)
Example legacy_rewritten_example :
  (value ← Compat.to_python ref_field legacy_example;
   Compat.to_mongo ref_field value)
  = Return (PyStr ([123; 34]%N ++ str "a$ref" ++ [34; 58]%N ++ str "1}")).
Proof. reflexivity. Qed.

(** C7: [to_mongo], of either field, raises the ValueError of the mapping
    check on every value that is no mapping; on a mapping it returns the
    whole serialization of the backend, or raises what the backend raises. *)
Theorem encode_rejects_non_mappings
        (self : JSONDictField.t) (value : pyval) :
  (is_dict value = false ->
     JSONDictField.to_mongo self value = Raise NOT_A_MAPPING
     /\ Compat.to_mongo self value = Raise NOT_A_MAPPING)
  /\ (forall data, is_dict value = true ->
        JSONDictField.call (JSONDictField.json_dumps self) value
        = Return data ->
        JSONDictField.to_mongo self value = Return (of_serialized data)
        /\ Compat.to_mongo self value = Return (of_serialized data))
  /\ (forall e, is_dict value = true ->
        JSONDictField.call (JSONDictField.json_dumps self) value = Raise e ->
        JSONDictField.to_mongo self value = Raise e
        /\ Compat.to_mongo self value = Raise e).
Proof.
  split; [| split].
  - intros Hv. unfold JSONDictField.to_mongo, Compat.to_mongo. rewrite Hv.
    split; reflexivity.
  - intros data Hv Hd. destruct (to_mongo_of_dumps self value Hv) as [H1 H2].
    rewrite H2, H1, Hd. split; reflexivity.
  - intros e Hv Hd. destruct (to_mongo_of_dumps self value Hv) as [H1 H2].
    rewrite H2, H1, Hd. split; reflexivity.
Qed.

(** A plain number, [None], a list and a text are refused; a mapping that
    holds bytes is refused by the reference backend itself; a mapping that
    holds the float one half is written with the half as five tenths. *)
Example encode_examples :
  JSONDictField.to_mongo ref_field (PyInt 3) = Raise NOT_A_MAPPING
  /\ Compat.to_mongo ref_field PyNone = Raise NOT_A_MAPPING
  /\ JSONDictField.to_mongo ref_field (PyList []) = Raise NOT_A_MAPPING
  /\ Compat.to_mongo ref_field (PyStr (str "{}")) = Raise NOT_A_MAPPING
  /\ JSONDictField.to_mongo ref_field (PyDict [(str "x", PyBytes [])])
     = Raise TypeError
  /\ JSONDictField.to_mongo ref_field
       (PyDict [(str "x", PyFloat (FFinite 1 (-1)))])
     = Return (PyStr ([123; 34]%N ++ str "x" ++ [34; 58]%N ++ str "5e-1}"))
  /\ JSONDictField.to_mongo ref_field (PyDict []) = Return (PyStr (str "{}")).
Proof. repeat split; reflexivity. Qed.

Section Construction.

Variables orjson ujson cjson : backend.

Abbreviation init := (JSONDictField.__init__ orjson ujson cjson).

Lemma init_selects json_backend self :
  init json_backend = Return self ->
  self = field_of orjson \/ self = field_of ujson \/ self = field_of cjson.
Proof.
  unfold JSONDictField.__init__.
  destruct (negb _) eqn:Hin; [discriminate |].
  apply negb_false_iff, bool_decide_eq_true in Hin.
  destruct (String.eqb_spec (default "orjson"%string json_backend) "orjson");
    [intros Heq; inversion Heq; auto |].
  destruct (String.eqb_spec (default "orjson"%string json_backend) "ujson");
    [intros Heq; inversion Heq; auto |].
  destruct (String.eqb_spec (default "orjson"%string json_backend) "cjson");
    [intros Heq; inversion Heq; auto |].
  exfalso.
  repeat (apply elem_of_cons in Hin as [Hin | Hin]; [congruence |]).
  inversion Hin.
Qed.

Lemma init_unsupported name :
  name ∉ ["orjson"; "ujson"; "cjson"]%string ->
  init (Some name) = Raise (ValueError ("Unsupported backend: " +:+ name)).
Proof.
  intros Hn. unfold JSONDictField.__init__. cbn [default].
  rewrite bool_decide_eq_false_2 by exact Hn. reflexivity.
Qed.

(** C9: [__init__] raises the ValueError of the backend check on every
    name that is none of [orjson], [ujson], [cjson]; each of the three names,
    and no name at all, which stands for [orjson], gives a field whose
    [json_loads] and [json_dumps] are those of the library named; and a
    field that was constructed holds one of the three libraries. *)
Theorem backend_checked_at_construction :
  (forall name, name ∉ ["orjson"; "ujson"; "cjson"]%string ->
     JSONDictField.__init__ orjson ujson cjson (Some name)
     = Raise (ValueError ("Unsupported backend: " +:+ name)))
  /\ JSONDictField.__init__ orjson ujson cjson (Some "orjson"%string)
     = Return (field_of orjson)
  /\ JSONDictField.__init__ orjson ujson cjson (Some "ujson"%string)
     = Return (field_of ujson)
  /\ JSONDictField.__init__ orjson ujson cjson (Some "cjson"%string)
     = Return (field_of cjson)
  /\ JSONDictField.__init__ orjson ujson cjson None
     = Return (field_of orjson)
  /\ (forall json_backend self,
        JSONDictField.__init__ orjson ujson cjson json_backend = Return self ->
        default "orjson"%string json_backend
          ∈ ["orjson"; "ujson"; "cjson"]%string
        /\ (self = field_of orjson \/ self = field_of ujson
            \/ self = field_of cjson)).
Proof.
  split; [exact init_unsupported |].
  do 4 (split; [reflexivity |]).
  intros json_backend self Hi. split; [| exact (init_selects _ _ Hi)].
  unfold JSONDictField.__init__ in Hi.
  destruct (negb _) eqn:Hin; [discriminate |].
  apply negb_false_iff, bool_decide_eq_true in Hin. exact Hin.
Qed.

(** C6: on a field constructed over backends that decode what they encode,
    a mapping of JSON values that [to_mongo] serializes is read back by
    [to_python] as a mapping structurally equal to it. *)
Theorem struct_round_trip json_backend self m stored :
  round_trips orjson -> round_trips ujson -> round_trips cjson ->
  JSONDictField.__init__ orjson ujson cjson json_backend = Return self ->
  json_compatible m = true ->
  JSONDictField.to_mongo self m = Return stored ->
  exists m', JSONDictField.to_python self stored = Return m'
             /\ struct_eq m' m = true.
Proof.
  intros Ho Hu Hc Hi Hm Hs.
  assert (Hlib : exists lib, round_trips lib /\ self = field_of lib).
  { destruct (init_selects _ _ Hi) as [-> | [-> | ->]]; eauto. }
  destruct Hlib as (lib & Hrt & ->).
  unfold JSONDictField.to_mongo in Hs.
  destruct (negb (is_dict m)); [discriminate |].
  cbn in Hs. destruct (dumps lib m) as [data | e] eqn:Hd; [| discriminate].
  cbn in Hs. injection Hs as <-.
  destruct (Hrt m data Hm Hd) as (m' & Hl & Heq).
  exists m'. split; [| exact Heq].
  destruct data; exact Hl.
Qed.

End Construction.

Lemma struct_round_trip_witness :
  exists m',
    JSONDictField.to_python ref_field
      (PyStr (RefJSON.print_value reading_example)) = Return m'
    /\ struct_eq m' reading_example = true.
Proof.
  apply (struct_round_trip RefJSON.lib RefJSON.lib RefJSON.lib None
           ref_field reading_example
           (PyStr (RefJSON.print_value reading_example))
           RefJSONFacts.lib_round_trips RefJSONFacts.lib_round_trips
           RefJSONFacts.lib_round_trips);
    reflexivity.
Defined.

(** The mapping of floats on the reference backend: the floats are written
    by their values, and read back as floats of the same values; the level,
    held as [3 * 2^2], comes back as [12 * 2^0]. *)
Example float_round_trip_example :
  JSONDictField.to_mongo ref_field reading_example
  = Return (PyStr (RefJSON.print_value reading_example))
  /\ RefJSON.print_value (PyFloat (FFinite 1 (-1))) = str "5e-1"
  /\ RefJSON.print_value (PyFloat (FFinite 3 2)) = str "12e0"
  /\ RefJSON.print_value (PyFloat (FFinite (-5) (-2))) = str "-125e-2"
  /\ JSONDictField.to_python ref_field
       (PyStr (RefJSON.print_value reading_example))
     = Return
         (PyDict [(str "status", PyStr (str "ok"));
                  (str "ratio", PyFloat (FFinite 1 (-1)));
                  (str "level", PyFloat (FFinite 12 0));
                  (str "points", PyList [PyFloat (FFinite (-5) (-2));
                                         PyInt 3])])
  /\ struct_eq (PyFloat (FFinite 12 0)) (PyFloat (FFinite 3 2)) = true
  /\ struct_eq (PyFloat (FFinite 1 0)) (PyFloat (FFinite 2 (-1))) = true
  /\ struct_eq (PyFloat (FFinite 1 0)) (PyFloat (FFinite 1 (-1))) = false.
Proof. repeat split; reflexivity. Qed.

(** * Further properties of the fields *)

(** ** ComplexDateTimeField: what decodes, and to what *)

Lemma convert_from_db_eq value :
  ComplexDateTimeField._convert_from_db value
  = ComplexDateTimeField._microseconds_since_epoch_to_datetime value.
Proof.
  unfold ComplexDateTimeField._convert_from_db.
  destruct (ComplexDateTimeField._microseconds_since_epoch_to_datetime value);
    reflexivity.
Qed.

Lemma convert_from_datetime_eq val :
  ComplexDateTimeField._convert_from_datetime val
  = ComplexDateTimeField._datetime_to_microseconds_since_epoch val.
Proof.
  unfold ComplexDateTimeField._convert_from_datetime.
  destruct (ComplexDateTimeField._datetime_to_microseconds_since_epoch val);
    reflexivity.
Qed.

(** A [bool] decodes as the integer it counts as. *)
Lemma decode_as_integer value n :
  as_integer value = Some n ->
  ComplexDateTimeField._microseconds_since_epoch_to_datetime value = decode n.
Proof. destruct value; try discriminate; intros [= <-]; reflexivity. Qed.

(** What is no integer does not decode. *)
Lemma decode_not_integer value :
  as_integer value = None ->
  exists e,
    ComplexDateTimeField._microseconds_since_epoch_to_datetime value = Raise e.
Proof.
  destruct value as [| b | n | f | s | b | dt | l | d]; try discriminate;
    intros _; try (eexists; reflexivity).
  unfold ComplexDateTimeField._microseconds_since_epoch_to_datetime.
  cbn [as_integer].
  destruct (float_floordiv f SECOND_TO_MICROSECONDS) as [seconds |];
    [| eexists; reflexivity].
  destruct (utcfromtimestamp seconds); eexists; reflexivity.
Qed.

(** What decodes is an integer within the bounds, and the datetime it
    decodes to is valid, in UTC, and encodes to it. *)
Lemma decode_returns value t :
  ComplexDateTimeField._microseconds_since_epoch_to_datetime value = Return t ->
  exists n,
    as_integer value = Some n /\ MIN_ENCODED <= n <= MAX_ENCODED
    /\ valid_datetime t = true /\ dt_tzinfo t = Some tzutc
    /\ encode t = Return n.
Proof.
  intros Ht. destruct (as_integer value) as [n |] eqn:Hn.
  - exists n. rewrite (decode_as_integer _ _ Hn) in Ht.
    destruct (decide (MIN_ENCODED <= n <= MAX_ENCODED)) as [Hr | Hr].
    + destruct (decode_in_range n Hr) as (t' & Ht' & Hv & Htz & He).
      assert (t' = t) as -> by congruence. auto.
    + rewrite (decode_out_of_range n Hr) in Ht. discriminate.
  - destruct (decode_not_integer _ Hn) as [e He]. congruence.
Qed.

Lemma to_python_decoded value t :
  ComplexDateTimeField._microseconds_since_epoch_to_datetime value = Return t ->
  ComplexDateTimeField.to_python value = PyDatetime t.
Proof.
  intros Hd. unfold ComplexDateTimeField.to_python.
  rewrite convert_from_db_eq, Hd. reflexivity.
Qed.

Lemma to_python_kept value e :
  ComplexDateTimeField._microseconds_since_epoch_to_datetime value = Raise e ->
  ComplexDateTimeField.to_python value = value.
Proof.
  intros Hd. unfold ComplexDateTimeField.to_python.
  rewrite convert_from_db_eq, Hd. reflexivity.
Qed.

(** X1: [_convert_from_db] returns a datetime exactly on the integers
    ([bool] among them) from [MIN_ENCODED] to [MAX_ENCODED]; on every other
    value it raises, and on what is not a number it raises TypeError. *)
Theorem convert_from_db_domain (value : pyval) :
  ((exists t, ComplexDateTimeField._convert_from_db value = Return t)
   <-> (exists n, as_integer value = Some n
                  /\ MIN_ENCODED <= n <= MAX_ENCODED))
  /\ (as_integer value = None -> (forall f, value <> PyFloat f) ->
      ComplexDateTimeField._convert_from_db value = Raise TypeError).
Proof.
  rewrite convert_from_db_eq. split; [split |].
  - intros [t Ht]. destruct (decode_returns _ _ Ht) as (n & Hn & Hr & _).
    eauto.
  - intros (n & Hn & Hr). rewrite (decode_as_integer _ _ Hn).
    destruct (decode_in_range n Hr) as (t & Ht & _). eauto.
  - intros Hn Hf.
    destruct value as [| b | n | f | s | b | dt | l | d];
      try discriminate; try reflexivity.
    exfalso. exact (Hf f eq_refl).
Qed.

(** X2: the datetime an integer decodes to is a valid one in UTC whose
    microsecond is the remainder of the integer by one million and whose
    second is its floored quotient, for the negative integers as well. *)
Theorem convert_from_db_result (n : Z) (t : datetime) :
  ComplexDateTimeField._convert_from_db (PyInt n) = Return t ->
  valid_datetime t = true
  /\ dt_tzinfo t = Some tzutc
  /\ microsecond t = n mod SECOND_TO_MICROSECONDS
  /\ timegm (timetuple t) = n / SECOND_TO_MICROSECONDS.
Proof.
  rewrite convert_from_db_eq. intros Ht.
  destruct (decode_returns _ _ Ht) as (n' & Hn & _ & Hv & Htz & He).
  injection Hn as <-.
  split; [exact Hv |]. split; [exact Htz |].
  rewrite encode_utc in He by (unfold dt_utcoffset; rewrite Htz; reflexivity).
  assert (n = timegm (timetuple t) * SECOND_TO_MICROSECONDS + microsecond t)
    as -> by congruence.
  apply valid_fields_spec in Hv as (_ & _ & _ & _ & _ & _ & Hus).
  unfold SECOND_TO_MICROSECONDS.
  split; Z.div_mod_to_equations; lia.
Qed.

Lemma convert_from_db_result_witness :
  valid_datetime t_before_epoch = true
  /\ dt_tzinfo t_before_epoch = Some tzutc
  /\ microsecond t_before_epoch = (-1) mod SECOND_TO_MICROSECONDS
  /\ timegm (timetuple t_before_epoch) = (-1) / SECOND_TO_MICROSECONDS.
Proof. apply (convert_from_db_result (-1) t_before_epoch). reflexivity. Defined.

(** X3: the integer a valid datetime encodes to lies between [MIN_ENCODED]
    and [MAX_ENCODED], so within the signed 64-bit integers; the two bounds
    are the encodings of the first and of the last microsecond of the
    calendar. *)
Theorem encoded_fits_in_64_bits :
  (forall t n,
     valid_datetime t = true ->
     ComplexDateTimeField._convert_from_datetime (PyDatetime t) = Return n ->
     MIN_ENCODED <= n <= MAX_ENCODED /\ - 2 ^ 63 <= n < 2 ^ 63)
  /\ ComplexDateTimeField._convert_from_datetime (PyDatetime t_first)
     = Return MIN_ENCODED
  /\ ComplexDateTimeField._convert_from_datetime (PyDatetime t_last)
     = Return MAX_ENCODED.
Proof.
  split; [| split; reflexivity].
  intros t n Hv He. rewrite convert_from_datetime_eq in He.
  pose proof (encode_range t n Hv He) as Hr. split; [exact Hr |].
  unfold MIN_ENCODED, MAX_ENCODED in Hr. lia.
Qed.

(** X4: two valid datetimes that encode to the same integer have the same
    year, month, day, hour, minute, second and microsecond: no two instants
    share an encoding. *)
Theorem encode_injective (t1 t2 : datetime) (n : Z) :
  valid_datetime t1 = true -> valid_datetime t2 = true ->
  ComplexDateTimeField._convert_from_datetime (PyDatetime t1) = Return n ->
  ComplexDateTimeField._convert_from_datetime (PyDatetime t2) = Return n ->
  fields t1 = fields t2.
Proof.
  rewrite !convert_from_datetime_eq. intros Hv1 Hv2 He1 He2.
  pose proof (decode_encode t1 n Hv1 He1) as Hd1.
  pose proof (decode_encode t2 n Hv2 He2) as Hd2.
  rewrite Hd1 in Hd2. unfold fields. congruence.
Qed.

Lemma encode_injective_witness : fields t_example = fields t_example_gmt.
Proof.
  apply (encode_injective t_example t_example_gmt 1615804200123456);
    reflexivity.
Defined.

(** X5: [to_python] is idempotent: what it returns it returns again; so
    [to_mongo] and [validate], which begin with it, give the same on a value
    and on what [to_python] makes of it. *)
Theorem to_python_idempotent (value : pyval) :
  ComplexDateTimeField.to_python (ComplexDateTimeField.to_python value)
  = ComplexDateTimeField.to_python value
  /\ ComplexDateTimeField.to_mongo (ComplexDateTimeField.to_python value)
     = ComplexDateTimeField.to_mongo value
  /\ ComplexDateTimeField.validate (ComplexDateTimeField.to_python value)
     = ComplexDateTimeField.validate value.
Proof.
  assert (H : ComplexDateTimeField.to_python
                (ComplexDateTimeField.to_python value)
              = ComplexDateTimeField.to_python value).
  { unfold ComplexDateTimeField.to_python at 2 3.
    destruct (ComplexDateTimeField._convert_from_db value) as [t | e] eqn:Hd.
    - reflexivity.
    - cbn. unfold ComplexDateTimeField.to_python. rewrite Hd. reflexivity. }
  unfold ComplexDateTimeField.to_mongo, ComplexDateTimeField.validate.
  rewrite H. repeat split; reflexivity.
Qed.

(** X6: [validate] accepts exactly the datetimes, whatever their time zone,
    and the integers from [MIN_ENCODED] to [MAX_ENCODED]; everything else it
    refuses with the ValidationError of the field, and with nothing else. *)
Theorem validate_accepts (value : pyval) :
  (ComplexDateTimeField.validate value = Return tt
   <-> (is_datetime value = true
        \/ exists n, as_integer value = Some n
                     /\ MIN_ENCODED <= n <= MAX_ENCODED))
  /\ (ComplexDateTimeField.validate value = Return tt
      \/ ComplexDateTimeField.validate value = Raise NOT_A_DATETIME).
Proof.
  unfold ComplexDateTimeField.validate, ComplexDateTimeField.to_python.
  rewrite convert_from_db_eq.
  destruct (ComplexDateTimeField._microseconds_since_epoch_to_datetime value)
    as [t | e] eqn:Hd; cbn.
  - split; [| left; reflexivity]. split; [| reflexivity].
    intros _. right. destruct (decode_returns _ _ Hd) as (n & Hn & Hr & _).
    eauto.
  - destruct (is_datetime value) eqn:Hdt; cbn.
    + split; [| left; reflexivity]. split; auto.
    + split; [| right; reflexivity]. split; [discriminate |].
      intros [Hc | (n & Hn & Hr)]; [discriminate |].
      rewrite (decode_as_integer _ _ Hn) in Hd.
      destruct (decode_in_range n Hr) as (t & Ht & _). congruence.
Qed.

(** X7: [validate] does not look at the time zone: a datetime that is not
    in UTC passes [validate] and is then refused by [to_mongo] and by
    [prepare_query_value] with the ValueError of the time zone check. *)
Theorem validate_ignores_time_zone (t : datetime) :
  dt_utcoffset t <> Some 0 ->
  ComplexDateTimeField.validate (PyDatetime t) = Return tt
  /\ ComplexDateTimeField.to_mongo (PyDatetime t) = Raise UTC_ERROR
  /\ ComplexDateTimeField.prepare_query_value (PyDatetime t) = Raise UTC_ERROR.
Proof.
  intros Hu. split; [reflexivity |].
  unfold ComplexDateTimeField.to_mongo, ComplexDateTimeField.prepare_query_value.
  change (ComplexDateTimeField.to_python (PyDatetime t)) with (PyDatetime t).
  rewrite convert_from_datetime_eq, (encode_not_utc t Hu). split; reflexivity.
Qed.

Lemma validate_ignores_time_zone_witness :
  ComplexDateTimeField.validate (PyDatetime t_naive) = Return tt
  /\ ComplexDateTimeField.to_mongo (PyDatetime t_naive) = Raise UTC_ERROR
  /\ ComplexDateTimeField.prepare_query_value (PyDatetime t_naive)
     = Raise UTC_ERROR.
Proof. apply (validate_ignores_time_zone t_naive). discriminate. Defined.

Lemma to_mongo_in_range n :
  MIN_ENCODED <= n <= MAX_ENCODED ->
  ComplexDateTimeField.to_mongo (PyInt n) = Return n.
Proof.
  intros Hr. destruct (decode_in_range n Hr) as (t & Ht & _ & _ & He).
  unfold ComplexDateTimeField.to_mongo.
  rewrite (to_python_decoded _ _ Ht), convert_from_datetime_eq. exact He.
Qed.

(** X8: [to_mongo] returns an integer within the bounds as it is, and
    raises AttributeError on one outside them; so [to_mongo] is idempotent:
    the integer it returns for a value it returns for that integer too. *)
Theorem to_mongo_keeps_encoded :
  (forall n, MIN_ENCODED <= n <= MAX_ENCODED ->
     ComplexDateTimeField.to_mongo (PyInt n) = Return n)
  /\ (forall n, ~ (MIN_ENCODED <= n <= MAX_ENCODED) ->
        ComplexDateTimeField.to_mongo (PyInt n) = Raise AttributeError)
  /\ (forall value n,
        (forall t, value = PyDatetime t -> valid_datetime t = true) ->
        ComplexDateTimeField.to_mongo value = Return n ->
        ComplexDateTimeField.to_mongo (PyInt n) = Return n).
Proof.
  split; [exact to_mongo_in_range | split].
  - intros n Hr. unfold ComplexDateTimeField.to_mongo.
    rewrite (to_python_kept _ _ (decode_out_of_range n Hr)). reflexivity.
  - intros value n Hvalid Hm. apply to_mongo_in_range.
    unfold ComplexDateTimeField.to_mongo in Hm.
    rewrite convert_from_datetime_eq in Hm.
    destruct (ComplexDateTimeField._microseconds_since_epoch_to_datetime value)
      as [t | e] eqn:Hd.
    + rewrite (to_python_decoded _ _ Hd) in Hm.
      destruct (decode_returns _ _ Hd) as (n' & _ & Hr & _ & _ & He).
      assert (n' = n) as -> by congruence. exact Hr.
    + rewrite (to_python_kept _ _ Hd) in Hm.
      destruct value as [| b | k | f | s | b | t | l | d]; try discriminate.
      exact (encode_range t n (Hvalid t eq_refl) Hm).
Qed.

(** X9: the integer [prepare_query_value] gives for a datetime is the one
    [to_mongo] gives and the one [__set__] stores, and what it raises they
    raise; but it takes datetimes only: every other value, an encoded integer
    among them, raises AttributeError. *)
Theorem query_value_is_stored_value
        (self : ComplexDateTimeField.t) (instance : gmap string pyval) :
  (forall t n,
     ComplexDateTimeField.prepare_query_value (PyDatetime t) = Return n ->
     ComplexDateTimeField.to_mongo (PyDatetime t) = Return n
     /\ ComplexDateTimeField.__set__ self instance (PyDatetime t)
        = Return (<[ComplexDateTimeField.name self := PyInt n]> instance))
  /\ (forall t e,
        ComplexDateTimeField.prepare_query_value (PyDatetime t) = Raise e ->
        ComplexDateTimeField.to_mongo (PyDatetime t) = Raise e
        /\ ComplexDateTimeField.__set__ self instance (PyDatetime t) = Raise e)
  /\ (forall value, is_datetime value = false ->
        ComplexDateTimeField.prepare_query_value value = Raise AttributeError).
Proof.
  unfold ComplexDateTimeField.prepare_query_value, ComplexDateTimeField.to_mongo,
    ComplexDateTimeField.__set__, ComplexDateTimeField.super_set.
  split; [| split].
  - intros t n Hq.
    change (ComplexDateTimeField.to_python (PyDatetime t)) with (PyDatetime t).
    cbn [truthy]. rewrite Hq. split; reflexivity.
  - intros t e Hq.
    change (ComplexDateTimeField.to_python (PyDatetime t)) with (PyDatetime t).
    cbn [truthy]. rewrite Hq. split; reflexivity.
  - intros value Hv. destruct value; try reflexivity. discriminate.
Qed.

(** X10: a valid datetime in UTC that [__set__] stores is read by [__get__]
    as a datetime of the same fields, in UTC, and no other field of the
    document is touched; whatever the field's [null] and default. *)
Theorem set_get_round_trip
        (self : ComplexDateTimeField.t) (instance : gmap string pyval)
        (t : datetime) :
  valid_datetime t = true -> dt_utcoffset t = Some 0 ->
  exists instance' t',
    ComplexDateTimeField.__set__ self instance (PyDatetime t) = Return instance'
    /\ ComplexDateTimeField.__get__ self instance' = Return (PyDatetime t')
    /\ fields t' = fields t /\ dt_tzinfo t' = Some tzutc
    /\ (forall other, other <> ComplexDateTimeField.name self ->
          instance' !! other = instance !! other).
Proof.
  intros Hv Hu. pose proof (encode_utc t Hu) as He.
  pose proof (decode_encode t _ Hv He) as Hd.
  eexists _, _.
  unfold ComplexDateTimeField.__set__, ComplexDateTimeField.__get__,
    ComplexDateTimeField.super_get, ComplexDateTimeField.super_set.
  cbn [truthy]. rewrite convert_from_datetime_eq, He.
  split; [reflexivity |].
  rewrite lookup_insert_eq.
  rewrite convert_from_db_eq, Hd.
  split; [reflexivity |]. split; [reflexivity |]. split; [reflexivity |].
  intros other Hne. apply lookup_insert_ne. congruence.
Qed.

Lemma set_get_round_trip_witness :
  exists instance' t',
    ComplexDateTimeField.__set__ start_timestamp ∅ (PyDatetime t_example_gmt)
    = Return instance'
    /\ ComplexDateTimeField.__get__ start_timestamp instance'
       = Return (PyDatetime t')
    /\ fields t' = fields t_example_gmt /\ dt_tzinfo t' = Some tzutc
    /\ (forall other, other <> ComplexDateTimeField.name start_timestamp ->
          instance' !! other = (∅ : gmap string pyval) !! other).
Proof.
  apply (set_get_round_trip start_timestamp ∅ t_example_gmt); reflexivity.
Defined.

(** X11: [__get__] returns exactly in three cases: the slot is empty or
    holds [None], and it returns [None]; the slot holds a datetime, and it
    returns it as it is; the slot holds an integer ([bool] among them) within
    the bounds, and it returns the datetime the integer decodes to. On any
    other stored value it raises. *)
Theorem get_domain
        (self : ComplexDateTimeField.t) (instance : gmap string pyval)
        (v : pyval) :
  ComplexDateTimeField.__get__ self instance = Return v
  <-> ((ComplexDateTimeField.super_get self instance = PyNone /\ v = PyNone)
       \/ (exists t, ComplexDateTimeField.super_get self instance = PyDatetime t
                     /\ v = PyDatetime t)
       \/ (exists n t,
             as_integer (ComplexDateTimeField.super_get self instance) = Some n
             /\ MIN_ENCODED <= n <= MAX_ENCODED
             /\ ComplexDateTimeField._convert_from_db (PyInt n) = Return t
             /\ v = PyDatetime t)).
Proof.
  unfold ComplexDateTimeField.__get__.
  set (data := ComplexDateTimeField.super_get self instance). clearbody data.
  assert (Hgen :
    (PyDatetime <$> ComplexDateTimeField._convert_from_db data) = Return v
    <-> exists n t,
          as_integer data = Some n /\ MIN_ENCODED <= n <= MAX_ENCODED
          /\ ComplexDateTimeField._convert_from_db (PyInt n) = Return t
          /\ v = PyDatetime t).
  { rewrite convert_from_db_eq. split.
    - destruct (ComplexDateTimeField._microseconds_since_epoch_to_datetime data)
        as [t | e] eqn:Hd; [| discriminate].
      intros [= <-].
      destruct (decode_returns _ _ Hd) as (n & Hn & Hr & _).
      exists n, t. rewrite convert_from_db_eq.
      rewrite <- (decode_as_integer _ _ Hn). auto.
    - intros (n & t & Hn & Hr & Ht & ->).
      rewrite convert_from_db_eq in Ht.
      rewrite (decode_as_integer _ _ Hn), Ht. reflexivity. }
  destruct data as [| b | k | f | s | b | t | l | d];
    try (rewrite Hgen; split;
         [ intros H; right; right; exact H
         | intros [[Hc _] | [[t' [Hc _]] | H]];
           [discriminate | discriminate | exact H] ]).
  - split.
    + intros [= <-]. left. auto.
    + intros [[_ ->] | [[t [Hc _]] | (n & t & Hc & _)]];
        [reflexivity | discriminate | discriminate].
  - split.
    + intros [= <-]. right. left. eauto.
    + intros [[Hc _] | [[t' [[= <-] ->]] | (n & t' & Hc & _)]];
        [discriminate | reflexivity | discriminate].
Qed.

(** X12: [__set__] converts, and so checks, the truthy values only: a
    truthy value that is no datetime raises AttributeError, while every falsy
    value is stored; of the falsy values, zero and [False] are then read by
    [__get__] as the epoch, and those that are neither [None] nor an integer
    (an empty text, list or mapping, the float zero) make [__get__] raise
    TypeError. *)
Theorem set_checks_only_truthy_values
        (self : ComplexDateTimeField.t) (instance : gmap string pyval)
        (value : pyval) :
  (truthy value = true -> is_datetime value = false ->
     ComplexDateTimeField.__set__ self instance value = Raise AttributeError)
  /\ (truthy value = false -> as_integer value <> None ->
        ComplexDateTimeField.__set__ self instance value
        = Return (<[ComplexDateTimeField.name self := value]> instance)
        /\ ComplexDateTimeField.__get__ self
             (<[ComplexDateTimeField.name self := value]> instance)
           = Return (PyDatetime t_epoch))
  /\ (truthy value = false -> value <> PyNone -> as_integer value = None ->
        ComplexDateTimeField.__set__ self instance value
        = Return (<[ComplexDateTimeField.name self := value]> instance)
        /\ ComplexDateTimeField.__get__ self
             (<[ComplexDateTimeField.name self := value]> instance)
           = Raise TypeError).
Proof.
  assert (Hset : truthy value = false -> value <> PyNone ->
                 ComplexDateTimeField.__set__ self instance value
                 = Return (<[ComplexDateTimeField.name self := value]>
                             instance)).
  { unfold ComplexDateTimeField.__set__, ComplexDateTimeField.super_set.
    intros -> Hn. destruct value; try reflexivity. congruence. }
  unfold ComplexDateTimeField.__get__, ComplexDateTimeField.super_get.
  rewrite lookup_insert_eq.
  split; [| split].
  - unfold ComplexDateTimeField.__set__.
    intros -> Hd. destruct value; try reflexivity. discriminate.
  - intros Ht Hi. split; [apply Hset; [exact Ht | intros ->; apply Hi; reflexivity] |].
    destruct value as [| [|] | n | f | s | b | t | l | d]; try discriminate;
      try (exfalso; apply Hi; reflexivity).
    + reflexivity.
    + cbn [truthy] in Ht. apply negb_false_iff, Z.eqb_eq in Ht. subst n.
      reflexivity.
  - intros Ht Hn Hi. split; [apply Hset; assumption |].
    destruct value as [| c | n | [| neg | m e] | [| c s] | [| c b] | t
                       | [| x l] | [| kv d]];
      try discriminate; try reflexivity; try (exfalso; apply Hn; reflexivity).
    cbn [truthy] in Ht. apply negb_false_iff, Z.eqb_eq in Ht. subst m.
    rewrite convert_from_db_eq.
    unfold ComplexDateTimeField._microseconds_since_epoch_to_datetime.
    cbn [as_integer float_floordiv]. destruct (0 <=? e); reflexivity.
Qed.

(** X13: the order of the integers is the order of the datetimes they
    decode to: sorting the stored values sorts the datetimes read back. *)
Theorem decode_preserves_order (n1 n2 : Z) (t1 t2 : datetime) :
  ComplexDateTimeField._convert_from_db (PyInt n1) = Return t1 ->
  ComplexDateTimeField._convert_from_db (PyInt n2) = Return t2 ->
  (n1 < n2 <-> datetime_lt t1 t2 = Return true)
  /\ (n1 = n2 <-> datetime_eq t1 t2 = Return true).
Proof.
  rewrite !convert_from_db_eq. intros Hd1 Hd2.
  destruct (decode_returns _ _ Hd1) as (k1 & Hk1 & _ & Hv1 & _ & He1).
  destruct (decode_returns _ _ Hd2) as (k2 & Hk2 & _ & Hv2 & _ & He2).
  injection Hk1 as <-. injection Hk2 as <-.
  pose proof (encode_returns_utc _ _ He1) as Hu1.
  pose proof (encode_returns_utc _ _ He2) as Hu2.
  rewrite datetime_lt_utc, datetime_eq_utc by assumption.
  rewrite (cmp_tuple_encode t1 t2 n1 n2) by assumption.
  destruct (Z.compare_spec n1 n2); cbn;
    (repeat split; intros; try lia; try discriminate; try reflexivity).
Qed.

Lemma decode_preserves_order_witness :
  (-1 < 0 <-> datetime_lt t_before_epoch t_epoch = Return true)
  /\ (-1 = 0 <-> datetime_eq t_before_epoch t_epoch = Return true).
Proof.
  apply (decode_preserves_order (-1) 0 t_before_epoch t_epoch); reflexivity.
Defined.

(** ** The struct fields: validation, and the compatibility field on new
    data *)

(** X14: [validate] serializes first: a value that is no mapping raises
    the ValueError of [to_mongo] and the base class is not reached; when the
    backend raises, [validate] raises the same; otherwise the result is the
    base class's on the serialization, which is all the base class sees of
    the value; and the compatibility field validates alike. *)
Theorem validate_serializes_first
        (super_validate : pyval -> result unit)
        (self : JSONDictField.t) (value : pyval) :
  (is_dict value = false ->
     JSONDictField.validate super_validate self value = Raise NOT_A_MAPPING)
  /\ (forall e, is_dict value = true ->
        JSONDictField.call (JSONDictField.json_dumps self) value = Raise e ->
        JSONDictField.validate super_validate self value = Raise e)
  /\ (forall data, is_dict value = true ->
        JSONDictField.call (JSONDictField.json_dumps self) value
        = Return data ->
        JSONDictField.validate super_validate self value
        = super_validate (of_serialized data))
  /\ (forall other_validate,
        (forall stored, is_text_or_binary stored = true ->
                        other_validate stored = super_validate stored) ->
        JSONDictField.validate other_validate self value
        = JSONDictField.validate super_validate self value)
  /\ Compat.validate super_validate self value
     = JSONDictField.validate super_validate self value.
Proof.
  unfold JSONDictField.validate, Compat.validate,
    JSONDictField.to_mongo, Compat.to_mongo.
  destruct (is_dict value); cbn [negb].
  - split; [discriminate |].
    destruct (JSONDictField.call (JSONDictField.json_dumps self) value)
      as [data | e]; cbn.
    + split; [discriminate |]. split; [intros d _ [= <-]; reflexivity |].
      split; [| reflexivity].
      intros other Hother. apply Hother. destruct data; reflexivity.
    + split; [intros e' _ [= <-]; reflexivity |].
      split; [discriminate |]. split; reflexivity.
  - split; [reflexivity |]. split; [discriminate |]. split; [discriminate |].
    split; reflexivity.
Qed.

(** What a field over a backend that decodes what it encodes has stored, it
    reads back. *)
Lemma field_round_trip (lib : backend) (m stored : pyval) :
  round_trips lib -> json_compatible m = true ->
  JSONDictField.to_mongo (field_of lib) m = Return stored ->
  is_text_or_binary stored = true
  /\ exists m', JSONDictField.to_python (field_of lib) stored = Return m'
                /\ struct_eq m' m = true.
Proof.
  intros Hrt Hm Hs. unfold JSONDictField.to_mongo in Hs.
  destruct (negb (is_dict m)); [discriminate |].
  cbn in Hs. destruct (dumps lib m) as [data | e] eqn:Hd; [| discriminate].
  cbn in Hs. injection Hs as <-.
  destruct (Hrt m data Hm Hd) as (m' & Hl & Heq).
  split; [destruct data; reflexivity |].
  exists m'. split; [| exact Heq]. destruct data; exact Hl.
Qed.

(** X15: the compatibility field round-trips new data: what its [to_mongo]
    stores for a mapping of JSON values is what [JSONDictField] stores, and
    its [to_python] reads it as [JSONDictField] does, as a mapping
    structurally equal to the one stored; no key is unescaped on the way. *)
Theorem compat_round_trip_on_new_data
        (orjson ujson cjson : backend) (json_backend : option string)
        (self : JSONDictField.t) (m stored : pyval) :
  round_trips orjson -> round_trips ujson -> round_trips cjson ->
  JSONDictField.__init__ orjson ujson cjson json_backend = Return self ->
  json_compatible m = true ->
  Compat.to_mongo self m = Return stored ->
  JSONDictField.to_mongo self m = Return stored
  /\ Compat.to_python self stored = JSONDictField.to_python self stored
  /\ exists m', Compat.to_python self stored = Return m'
                /\ struct_eq m' m = true.
Proof.
  intros Ho Hu Hc Hi Hm Hs.
  assert (Hlib : exists lib, round_trips lib /\ self = field_of lib).
  { destruct (init_selects _ _ _ _ _ Hi) as [-> | [-> | ->]]; eauto. }
  destruct Hlib as (lib & Hrt & ->).
  assert (Hd : is_dict m = true).
  { unfold Compat.to_mongo in Hs. destruct (is_dict m); [reflexivity |].
    discriminate. }
  destruct (to_mongo_of_dumps (field_of lib) m Hd) as [_ Heq].
  rewrite Heq in Hs. split; [exact Hs |].
  destruct (field_round_trip lib m stored Hrt Hm Hs) as (Ht & m' & Hp & Hse).
  assert (Hsame : Compat.to_python (field_of lib) stored
                  = JSONDictField.to_python (field_of lib) stored)
    by (destruct stored; try discriminate; reflexivity).
  split; [exact Hsame |]. exists m'. rewrite Hsame. auto.
Qed.

Lemma compat_round_trip_on_new_data_witness :
  JSONDictField.to_mongo (field_of RefJSON.lib) reading_example
  = Return (PyStr (RefJSON.print_value reading_example))
  /\ Compat.to_python (field_of RefJSON.lib)
       (PyStr (RefJSON.print_value reading_example))
     = JSONDictField.to_python (field_of RefJSON.lib)
         (PyStr (RefJSON.print_value reading_example))
  /\ exists m',
       Compat.to_python (field_of RefJSON.lib)
         (PyStr (RefJSON.print_value reading_example)) = Return m'
       /\ struct_eq m' reading_example = true.
Proof.
  apply (compat_round_trip_on_new_data RefJSON.lib RefJSON.lib RefJSON.lib
           (Some "cjson"%string) (field_of RefJSON.lib) reading_example
           (PyStr (RefJSON.print_value reading_example))
           RefJSONFacts.lib_round_trips RefJSONFacts.lib_round_trips
           RefJSONFacts.lib_round_trips);
    reflexivity.
Defined.
